(** * aws_hacks: a shallow embedding of [aws_hacks.py]

    The module has two kinds of code.  The script composers
    ([make_start_script], [get_run_parallel_script]) are pure string
    formatting; they are embedded on top of small models of Python's
    [str.format], [%]-formatting and [str.join].  The transfer wrappers
    ([download_from_s3], [upload_to_s3]) are effectful: they toggle an
    entry of [os.environ], talk to the object store through boto and touch
    local files.  They are embedded in a state-and-exception monad over an
    explicit [world].  Python 3 is the reference: a [str] is a sequence of
    code points, kept here as its UTF-8 bytes, and [open(fname)] opens in
    text mode. *)

From Stdlib Require Import Ascii.
From stdpp Require Import base strings list gmap pretty.

Local Open Scope string_scope.
Local Open Scope list_scope.

(** ** Characters that cannot be typed inside a literal *)

Definition nl : string := String "010"%char "".
Definition dq : string := String "034"%char "".
Definition bs : string := String "092"%char "".

(** ** Python string primitives *)

Module PyStr.

(** [sep.join(parts)] *)
Fixpoint join (sep : string) (parts : list string) : string :=
  match parts with
  | [] => ""
  | [p] => p
  | p :: rest => p +:+ sep +:+ join sep rest
  end.

(** A continuation byte of a UTF-8 sequence. *)
Definition is_continuation (c : ascii) : bool :=
  (128 <=? N_of_ascii c)%N && (N_of_ascii c <? 192)%N.

(** The characters of a string, as Python iterates a [str]: one piece per
    code point, that is a leading byte with the continuation bytes that
    follow it.  The scan runs from the right and carries the continuation
    bytes not yet attached. *)
Fixpoint chars_go (s : string) : string * list string :=
  match s with
  | "" => ("", [])
  | String c s' =>
    let '(pending, pieces) := chars_go s' in
    if is_continuation c then (String c pending, pieces)
    else ("", String c pending :: pieces)
  end.

Definition chars (s : string) : list string :=
  match chars_go s with
  | ("", pieces) => pieces
  | (pending, pieces) => pending :: pieces
  end.

(** [needle in hay] for two strings. *)
Fixpoint contains (needle hay : string) : bool :=
  String.prefix needle hay
  || match hay with
     | "" => false
     | String _ hay' => contains needle hay'
     end.

(** Keyword arguments of a [format] call, already converted with [str()]. *)
Definition kwargs := list (string * string).

Fixpoint kw_lookup (kw : kwargs) (name : string) : option string :=
  match kw with
  | [] => None
  | (k, v) :: kw' => if String.eqb k name then Some v else kw_lookup kw' name
  end.

(** [str.format] with keyword arguments, for templates made of literal text, the
    escapes [{{] and [}}], and named replacement fields [{name}].  The
    scanner is a four-state machine over the template; [None] stands for
    the exception Python raises (a lone brace, an empty or unknown field
    name, or a field syntax outside this fragment). *)
Inductive fmt_state :=
| FText
| FOpen
| FField (name : string)
| FClose.

Definition plain_field_char (c : ascii) : bool :=
  negb (Ascii.eqb c "{" || Ascii.eqb c "!" || Ascii.eqb c ":"
        || Ascii.eqb c "." || Ascii.eqb c "[")%char.

Fixpoint format_go (kw : kwargs) (st : fmt_state) (t : string) : option string :=
  match t with
  | "" => match st with FText => Some "" | _ => None end
  | String c t' =>
    match st with
    | FText =>
      if Ascii.eqb c "{" then format_go kw FOpen t'
      else if Ascii.eqb c "}" then format_go kw FClose t'
      else String c <$> format_go kw FText t'
    | FOpen =>
      if Ascii.eqb c "{" then String c <$> format_go kw FText t'
      else if Ascii.eqb c "}" then None
      else if plain_field_char c then format_go kw (FField (String c "")) t'
      else None
    | FField name =>
      if Ascii.eqb c "}" then
        match kw_lookup kw name with
        | Some v => String.append v <$> format_go kw FText t'
        | None => None
        end
      else if plain_field_char c then
        format_go kw (FField (name +:+ String c "")) t'
      else None
    | FClose =>
      if Ascii.eqb c "}" then String c <$> format_go kw FText t'
      else None
    end
  end.

Definition format (template : string) (kw : kwargs) : option string :=
  format_go kw FText template.

(** [template % arg] for a single string argument: exactly one [%s]
    conversion, [%%] for a literal percent sign. *)
Fixpoint percent_go (arg : option string) (pct : bool) (t : string) : option string :=
  match t with
  | "" => if pct then None else match arg with None => Some "" | Some _ => None end
  | String c t' =>
    if pct then
      if Ascii.eqb c "%" then String c <$> percent_go arg false t'
      else if Ascii.eqb c "s" then
        match arg with
        | Some a => String.append a <$> percent_go None false t'
        | None => None
        end
      else None
    else if Ascii.eqb c "%" then percent_go arg true t'
    else String c <$> percent_go arg false t'
  end.

Definition percent (template arg : string) : option string :=
  percent_go (Some arg) false template.

End PyStr.

(** ** UTF-8, the encoding a text-mode file is read with *)

Module UTF8.

Definition in_range (lo hi : N) (b : Byte.byte) : bool :=
  (lo <=? Byte.to_N b)%N && (Byte.to_N b <=? hi)%N.

(** The decoder's state: at a boundary, or inside a sequence with one,
    two or three continuation bytes to come, or just after a leading byte
    that narrows the range of the next one. *)
Inductive state :=
| Boundary
| Tail1
| Tail2
| Tail3
| AfterE0
| AfterED
| AfterF0
| AfterF4.

(** Well-formed sequences only: no overlong form, no surrogate, nothing
    above U+10FFFF. *)
Definition step (st : state) (b : Byte.byte) : option state :=
  match st with
  | Boundary =>
    if in_range 0 127 b then Some Boundary
    else if in_range 194 223 b then Some Tail1
    else if in_range 224 224 b then Some AfterE0
    else if in_range 225 236 b || in_range 238 239 b then Some Tail2
    else if in_range 237 237 b then Some AfterED
    else if in_range 240 240 b then Some AfterF0
    else if in_range 241 243 b then Some Tail3
    else if in_range 244 244 b then Some AfterF4
    else None
  | Tail1 => if in_range 128 191 b then Some Boundary else None
  | Tail2 => if in_range 128 191 b then Some Tail1 else None
  | Tail3 => if in_range 128 191 b then Some Tail2 else None
  | AfterE0 => if in_range 160 191 b then Some Tail1 else None
  | AfterED => if in_range 128 159 b then Some Tail1 else None
  | AfterF0 => if in_range 144 191 b then Some Tail2 else None
  | AfterF4 => if in_range 128 143 b then Some Tail2 else None
  end.

Fixpoint valid_from (st : state) (bs : list Byte.byte) : bool :=
  match bs with
  | [] => match st with Boundary => true | _ => false end
  | b :: bs' =>
    match step st b with
    | Some st' => valid_from st' bs'
    | None => false
    end
  end.

(** Whether the bytes decode. *)
Definition valid (bs : list Byte.byte) : bool := valid_from Boundary bs.

End UTF8.

(** ** The script composer *)

Definition _base_cmd_tmp : string :=
  "#!/bin/bash" +:+ nl +:+
  "echo " +:+ dq +:+ "updating code ..." +:+ dq +:+ nl +:+
  "source /home/ubuntu/.bashrc" +:+ nl +:+
  "source /home/ubuntu/{anaconda_path}/bin/activate {env}" +:+ nl +:+
  "{install_pip}" +:+ nl +:+
  "{swapfile_cmd}" +:+ nl +:+
  "(cd /home/ubuntu/github/{repo} " +:+ bs +:+ nl +:+
  "  && git pull origin master " +:+ bs +:+ nl +:+
  "  && echo " +:+ dq +:+ "updating code ... done" +:+ dq +:+ " " +:+ bs +:+ nl +:+
  "  && {cmd})" +:+ nl.

Definition _base_swap_tmp : string :=
  "echo " +:+ dq +:+ "making swap file ..." +:+ dq +:+ nl +:+
  "sudo chown ubuntu /mnt" +:+ nl +:+
  "sudo dd if=/dev/zero of=/mnt/swapfile bs=1M count={add_swap_file}" +:+ nl +:+
  "sudo chown root:root /mnt/swapfile" +:+ nl +:+
  "sudo chmod 600 /mnt/swapfile" +:+ nl +:+
  "sudo mkswap /mnt/swapfile" +:+ nl +:+
  "sudo swapon /mnt/swapfile" +:+ nl +:+
  "echo " +:+ dq +:+ "/mnt/swapfile swap swap defaults 0 0" +:+ dq +:+
    " | sudo tee -a /etc/fstab" +:+ nl +:+
  "sudo swapon -a" +:+ nl +:+
  "echo " +:+ dq +:+ "making swap file ... done" +:+ dq +:+ nl.

(** The [add_swap_file] argument: "bool, int" in the docstring. *)
Inductive swap_arg :=
| SwapBool (b : bool)
| SwapInt (n : Z).

(** Python truth value of the argument ([if add_swap_file:]). *)
Definition swap_truthy (a : swap_arg) : bool :=
  match a with
  | SwapBool b => b
  | SwapInt n => negb (n =? 0)%Z
  end.

(** [str(add_swap_file)], which is what a [{add_swap_file}] field renders. *)
Definition swap_str (a : swap_arg) : string :=
  match a with
  | SwapBool true => "True"
  | SwapBool false => "False"
  | SwapInt n => pretty n
  end.

Definition pip_line_tmp : string := "{anaconda_path}/bin/pip install {package}".

Definition make_start_script (cmd repo anaconda_path env : string)
    (install_pip : list string) (add_swap_file : swap_arg) : option string :=
  swapfile_cmd ←
    (if swap_truthy add_swap_file
     then PyStr.format _base_swap_tmp [("add_swap_file", swap_str add_swap_file)]
     else Some "");
  install_pip' ←
    (if decide (length install_pip = 0)
     then Some ""
     else PyStr.join nl <$>
            mapM (λ package,
                    PyStr.format pip_line_tmp
                      [("anaconda_path", anaconda_path); ("package", package)])
                 install_pip);
  PyStr.format _base_cmd_tmp
    [("anaconda_path", anaconda_path);
     ("install_pip", install_pip');
     ("swapfile_cmd", swapfile_cmd);
     ("repo", repo);
     ("env", env);
     ("cmd", cmd)].

(** Defaults of the signature: [install_pip=()], [add_swap_file=False]. *)
Definition make_start_script_default (cmd repo anaconda_path env : string)
    : option string :=
  make_start_script cmd repo anaconda_path env [] (SwapBool false).

(** ** The parallel-run command builder *)

(** A value of the [parallel_args] mapping: a string, an integer, [None],
    or a list of such values. *)
#[local] Set Warnings "-register-all".
Inductive arg_value :=
| VStr (s : string)
| VInt (n : Z)
| VNone
| VList (l : list arg_value).

Definition flag_tmp : string := "--{param} {value}".
Definition parallel_tmp : string := "python run_parallel.py %s".

(** An item a [join] accepts: a [str]. *)
Definition as_str (v : arg_value) : option string :=
  match v with
  | VStr s => Some s
  | _ => None
  end.

(** [sep.join(value)]: the value is iterated (a [str] by characters, a
    list by items) and every item has to be a [str]; [None] stands for
    the [TypeError] raised otherwise. *)
Definition join_value (sep : string) (value : arg_value) : option string :=
  match value with
  | VStr s => Some (PyStr.join sep (PyStr.chars s))
  | VList l => PyStr.join sep <$> mapM as_str l
  | VInt _ | VNone => None
  end.

Section ParallelScript.

(** [str()] of a list, which is what [format] renders when a list sits
    under a name other than [par_args].  It is Python's builtin [repr] of
    a list and is taken as given. *)
Variable str_of_list : list arg_value → string.

(** [str(value)], as a replacement field applies it. *)
Definition py_str (value : arg_value) : string :=
  match value with
  | VStr s => s
  | VInt n => pretty n
  | VNone => "None"
  | VList l => str_of_list l
  end.

(** [' '.join(value) if param == 'par_args' else value], followed by the
    [str()] that the replacement field applies. *)
Definition flag_value (param : string) (value : arg_value) : option string :=
  if String.eqb param "par_args" then join_value " " value
  else Some (py_str value).

(** The mapping is an association list in the order [items()] yields
    its entries. *)
Definition get_run_parallel_script (parallel_args : list (string * arg_value))
    : option string :=
  flags ← mapM (λ item : string * arg_value,
                  value ← flag_value item.1 item.2;
                  PyStr.format flag_tmp [("param", item.1); ("value", value)])
               parallel_args;
  PyStr.percent parallel_tmp (PyStr.join " " flags).

End ParallelScript.

(** ** The world of the transfer wrappers *)

Inductive exn :=
| AttributeError
| TypeError
| KeyError
| ValueError
| IOError
| UnicodeDecodeError
| S3ResponseError.

(** The [host] argument: [None], an instance of boto's [NoHostProvided]
    (the case [download_from_s3] tests with [isinstance]), or a string. *)
Inductive host_arg :=
| HostNone
| HostNoHostProvided
| HostStr (s : string).

(** The [fname] argument of [upload_to_s3]: a path string, or an already
    opened file object (which has [fileno()], but which [open] refuses). *)
Inductive pyval :=
| PStr (s : string)
| PFile (fd : nat).

Inductive whence := SEEK_SET | SEEK_END.

(** An opaque progress callback, handed through to boto. *)
Inductive callback := Callback (id : nat).

Record s3_object := S3Object {
  o_body : list Byte.byte;
  o_metadata : list (string * string);
  o_md5 : option (string * string);
  o_reduced_redundancy : bool
}.

Record handle := Handle {
  h_path : string;
  h_pos : nat;
  h_closed : bool
}.

Inductive event :=
| EnvSet (k v : string)
| EnvDel (k : string)
| Print (msg : string)
| FileOpened (path : string) (fd : nat)
| FileSeek (fd pos : nat)
| FileClosed (fd : nat)
| FileWritten (path : string)
| S3HeadBucket (bucket : string)
| S3Head (bucket key : string)
| S3Get (bucket key : string)
| S3Put (bucket key : string) (cb : option callback).

(** [environ] is [os.environ]; [files] the local file system and
    [writable] the paths that can be opened for writing; [handles] the
    table of file objects, indexed by descriptor; [s3] the object store,
    bucket name to key to object; [put_reply] what the store client
    reports as transferred for a given payload ([None] is Python's
    [None]) and [put_stored] the object the store holds after a put of
    that payload under a bucket, a key, the metadata set on the key, the
    caller's checksum and the redundancy flag ([None]: the store is left
    as it was); [log] the effects performed so far, oldest first. *)
Record world := World {
  environ : gmap string string;
  files : gmap string (list Byte.byte);
  writable : string → bool;
  handles : list handle;
  s3 : gmap string (gmap string s3_object);
  put_reply : list Byte.byte → option Z;
  put_stored : string → string → list (string * string) →
               option (string * string) → bool → list Byte.byte →
               option s3_object;
  log : list event
}.

Definition with_environ (f : gmap string string → gmap string string) (w : world) : world :=
  World (f (environ w)) (files w) (writable w) (handles w) (s3 w)
        (put_reply w) (put_stored w) (log w).
Definition with_files (f : gmap string (list Byte.byte) → gmap string (list Byte.byte))
    (w : world) : world :=
  World (environ w) (f (files w)) (writable w) (handles w) (s3 w)
        (put_reply w) (put_stored w) (log w).
Definition with_handles (f : list handle → list handle) (w : world) : world :=
  World (environ w) (files w) (writable w) (f (handles w)) (s3 w)
        (put_reply w) (put_stored w) (log w).
Definition with_s3 (f : gmap string (gmap string s3_object) → gmap string (gmap string s3_object))
    (w : world) : world :=
  World (environ w) (files w) (writable w) (handles w) (f (s3 w))
        (put_reply w) (put_stored w) (log w).
Definition with_log (f : list event → list event) (w : world) : world :=
  World (environ w) (files w) (writable w) (handles w) (s3 w)
        (put_reply w) (put_stored w) (f (log w)).

(** ** A state-and-exception monad *)

Inductive outcome (A : Type) :=
| Ret (a : A)
| Raise (e : exn).
Arguments Ret {A} a.
Arguments Raise {A} e.

Definition M (A : Type) : Type := world → outcome A * world.

Definition ret {A} (a : A) : M A := λ w, (Ret a, w).
Definition bind {A B} (m : M A) (f : A → M B) : M B := λ w,
  match m w with
  | (Ret a, w') => f a w'
  | (Raise e, w') => (Raise e, w')
  end.

Declare Scope M_scope.
Delimit Scope M_scope with M.
Bind Scope M_scope with M.
Notation "x ← y ; z" := (bind y (λ x, z))
  (at level 20, y at level 100, z at level 200, only parsing) : M_scope.
Notation "x ;; z" := (bind x (λ _, z))
  (at level 100, z at level 200, only parsing, right associativity) : M_scope.
Local Open Scope M_scope.

Definition raise {A} (e : exn) : M A := λ w, (Raise e, w).
Definition get_world : M world := λ w, (Ret w, w).
Definition modify (f : world → world) : M unit := λ w, (Ret (), f w).
Definition emit (ev : event) : M unit := modify (with_log (λ l, l ++ [ev])).

(** [if b: m] *)
Definition when_ (b : bool) (m : M unit) : M unit :=
  if b then m else ret ().

(** [try: body / except: handler] with a bare [except]. *)
Definition try_except {A} (body handler : M A) : M A := λ w,
  match body w with
  | (Ret a, w') => (Ret a, w')
  | (Raise _, w') => handler w'
  end.

(** [cleanup] runs however [body] ends; an exception of [body] goes on
    propagating afterwards. *)
Definition finally {A} (body : M A) (cleanup : M unit) : M A := λ w,
  match body w with
  | (r, w') =>
    match cleanup w' with
    | (Ret _, w'') => (r, w'')
    | (Raise e, w'') => (Raise e, w'')
    end
  end.

(** ** Primitives: [os.environ], local files, [print] *)

(** [os.environ[k] = v] *)
Definition setenv (k v : string) : M unit :=
  modify (with_environ <[k:=v]>);; emit (EnvSet k v).

(** [del os.environ[k]], a [KeyError] when [k] is not set. *)
Definition delenv (k : string) : M unit :=
  w ← get_world;
  match environ w !! k with
  | None => raise KeyError
  | Some _ => modify (with_environ (delete k));; emit (EnvDel k)
  end.

Definition print (msg : string) : M unit := emit (Print msg).

(** The result of a formatting operation, its exception re-raised. *)
Definition formatted (o : option string) : M string :=
  match o with
  | Some s => ret s
  | None => raise ValueError
  end.

(** [open(fname)], in text mode: a file object is not a path; a missing
    file cannot be opened for reading.  Nothing is decoded yet. *)
Definition open_file (fname : pyval) : M nat :=
  match fname with
  | PFile _ => raise TypeError
  | PStr p =>
    w ← get_world;
    match files w !! p with
    | None => raise IOError
    | Some _ =>
      let fd := length (handles w) in
      modify (with_handles (λ hs, hs ++ [Handle p 0 false]));;
      emit (FileOpened p fd);;
      ret fd
    end
  end.

(** The file object behind a descriptor; operations on a closed file
    raise [ValueError]. *)
Definition live_handle (fd : nat) : M handle :=
  w ← get_world;
  match handles w !! fd with
  | Some h => if h_closed h then raise ValueError else ret h
  | None => raise ValueError
  end.

Definition file_length (h : handle) : M nat :=
  w ← get_world;
  match files w !! h_path h with
  | Some content => ret (length content)
  | None => raise IOError
  end.

Definition set_pos (fd pos : nat) : M unit :=
  modify (with_handles (alter (λ h, Handle (h_path h) pos (h_closed h)) fd)).

(** [fid.seek(offset, whence)] *)
Definition seek (fd : nat) (offset : Z) (wh : whence) : M unit :=
  h ← live_handle fd;
  n ← file_length h;
  let target := match wh with
                | SEEK_SET => offset
                | SEEK_END => (Z.of_nat n + offset)%Z
                end in
  if (target <? 0)%Z then raise IOError
  else set_pos fd (Z.to_nat target);; emit (FileSeek fd (Z.to_nat target)).

(** [fid.tell()] *)
Definition tell (fd : nat) : M Z :=
  h ← live_handle fd;
  ret (Z.of_nat (h_pos h)).

(** [fid.close()], as the [with] statement calls it on exit. *)
Definition close_file (fd : nat) : M unit :=
  modify (with_handles (alter (λ h, Handle (h_path h) (h_pos h) true) fd));;
  emit (FileClosed fd).

(** [with open(fname) as fid: body] *)
Definition with_open {A} (fname : pyval) (body : nat → M A) : M A :=
  fid ← open_file fname;
  finally (body fid) (close_file fid).

(** [obj.fileno()]: a [str] has no such attribute. *)
Definition fileno (obj : pyval) : M nat :=
  match obj with
  | PFile fd => live_handle fd;; ret fd
  | PStr _ => raise AttributeError
  end.

(** [os.fstat(fd).st_size] *)
Definition os_fstat_size (fd : nat) : M Z :=
  h ← live_handle fd;
  n ← file_length h;
  ret (Z.of_nat n).

(** ['eu-central' in host]: only a string supports the test. *)
Definition str_in (needle : string) (host : host_arg) : M bool :=
  match host with
  | HostStr s => ret (PyStr.contains needle s)
  | _ => raise TypeError
  end.

Definition is_None (host : host_arg) : bool :=
  match host with HostNone => true | _ => false end.

Definition isinstance_NoHostProvided (host : host_arg) : bool :=
  match host with HostNoHostProvided => true | _ => false end.

(** ** The boto collaborator

    The object store is one name space of buckets, whatever the endpoint
    host and the signing mode; transport and authentication failures are
    outside the model.  What remains are the failures the arguments and
    the state decide: a host that is not a string, a missing bucket under
    [validate=True], a missing key, a destination that cannot be opened,
    a file that does not decode. *)

Record connection := Connection {
  c_key_id : string;
  c_secret : string;
  c_host : host_arg
}.

Record bucket_ref := Bucket { b_name : string }.

Record s3key := S3Key {
  k_bucket : string;
  k_name : string;
  k_metadata : list (string * string)
}.

Definition lookup_object (w : world) (bucket key : string) : option s3_object :=
  match s3 w !! bucket with
  | Some objs => objs !! key
  | None => None
  end.

(** [boto.connect_s3(..., host=host)]: the connection inspects the host
    name, and raises [TypeError] on anything but a string. *)
Definition connect_s3 (aws_access_key_id aws_secret_access_key : string)
    (host : host_arg) : M connection :=
  match host with
  | HostStr _ => ret (Connection aws_access_key_id aws_secret_access_key host)
  | HostNone | HostNoHostProvided => raise TypeError
  end.

(** [com.get_bucket(name, validate=...)]: asks the store only when
    validating. *)
Definition get_bucket (com : connection) (name : string) (validate : bool)
    : M bucket_ref :=
  if validate then
    emit (S3HeadBucket name);;
    w ← get_world;
    match s3 w !! name with
    | Some _ => ret (Bucket name)
    | None => raise S3ResponseError
    end
  else ret (Bucket name).

(** [Key(bucket)] *)
Definition Key (bucket : bucket_ref) : s3key := S3Key (b_name bucket) "" [].

(** [k.key = name] *)
Definition set_key (k : s3key) (name : string) : s3key :=
  S3Key (k_bucket k) name (k_metadata k).

(** [k.set_metadata(name, value)] *)
Definition set_metadata (k : s3key) (name value : string) : s3key :=
  S3Key (k_bucket k) (k_name k) ((name, value) :: k_metadata k).

(** [k.exists()] *)
Definition key_exists (k : s3key) : M bool :=
  emit (S3Head (k_bucket k) (k_name k));;
  w ← get_world;
  ret (match lookup_object w (k_bucket k) (k_name k) with
        | Some _ => true
        | None => false
        end).

(** [bucket.get_key(name)], [None] for a key that is not there. *)
Definition bucket_get_key (bucket : bucket_ref) (name : string) : M (option s3key) :=
  emit (S3Head (b_name bucket) name);;
  w ← get_world;
  ret (match lookup_object w (b_name bucket) name with
        | Some o => Some (S3Key (b_name bucket) name (o_metadata o))
        | None => None
        end).

(** [k.get_contents_to_filename(fname)]; on [None] the attribute lookup
    fails.  The destination is opened for writing before the object is
    asked for; when the request fails the file just created is removed
    again. *)
Definition get_contents_to_filename (k : option s3key) (fname : string) : M unit :=
  match k with
  | None => raise AttributeError
  | Some k =>
    w ← get_world;
    if negb (writable w fname) then raise IOError
    else
      emit (S3Get (k_bucket k) (k_name k));;
      w ← get_world;
      match lookup_object w (k_bucket k) (k_name k) with
      | None => modify (with_files (delete fname));; raise S3ResponseError
      | Some o =>
        modify (with_files <[fname := o_body o]>);;
        emit (FileWritten fname)
      end
  end.

(** [k.set_contents_from_file(fid, cb=..., md5=..., reduced_redundancy=...,
    rewind=...)].  The payload is the file from the read position on
    (from the start under [rewind]), read through the text-mode file
    object: bytes that do not decode raise [UnicodeDecodeError].  What the
    store then holds and what the client reports are the store's and the
    client's business ([put_stored], [put_reply]); the file has been read
    to its end. *)
Definition set_contents_from_file (k : s3key) (fid : nat) (cb : option callback)
    (md5 : option (string * string)) (reduced_redundancy rewind : bool)
    : M (option Z) :=
  h ← live_handle fid;
  w ← get_world;
  match files w !! h_path h with
  | None => raise IOError
  | Some content =>
    let start := if rewind then 0 else h_pos h in
    let payload := drop start content in
    if negb (UTF8.valid payload) then raise UnicodeDecodeError
    else
      emit (S3Put (k_bucket k) (k_name k) cb);;
      match put_stored w (k_bucket k) (k_name k) (k_metadata k) md5
                       reduced_redundancy payload with
      | Some o => modify (with_s3 (alter (<[k_name k := o]>) (k_bucket k)))
      | None => ret ()
      end;;
      set_pos fid (length content);;
      ret (put_reply w payload)
  end.

(** ** The transfer wrappers *)

Definition SIGV4 : string := "S3_USE_SIGV4".
Definition marker : string := "eu-central".

Definition download_from_s3 (aws_access_key_id aws_secret_access_key : string)
    (bucket fname key : string) (dry_run : bool) (host : host_arg) : M bool :=
  switch_validation ←
    (if negb (is_None host) && negb (isinstance_NoHostProvided host) then
       found ← str_in marker host;
       if found then setenv SIGV4 "True";; ret true else ret false
     else ret false) : M bool;
  com ← connect_s3 aws_access_key_id aws_secret_access_key host;
  bucket ← get_bucket com bucket false;
  let my_key := set_key (Key bucket) key in
  present ← key_exists my_key;
  let finish (out : bool) : M bool :=
    when_ switch_validation (delenv SIGV4);;
    ret out in
  if present then
    if negb dry_run then
      s3fid ← bucket_get_key bucket key;
      get_contents_to_filename s3fid fname;;
      finish true
    else ret true
  else
    msg ← formatted (PyStr.percent "could not get %s : it does not exist" key);
    print msg;;
    finish false.

(** The [try]/[except] block that measures the file. *)
Definition measure_size (fname : pyval) (fid : nat) : M Z :=
  try_except
    (fd ← fileno fname; os_fstat_size fd)
    (seek fid 0 SEEK_END;; tell fid).

Definition truthy_str (s : option string) : bool :=
  match s with
  | Some (String _ _) => true
  | _ => false
  end.

Definition upload_to_s3 (aws_access_key_id aws_secret_access_key : string)
    (fname : pyval) (bucket key : string) (cb : option callback)
    (md5 : option (string * string)) (reduced_redundancy : bool)
    (content_type : option string) (host : host_arg) : M bool :=
  switch_validation ←
    (if negb (is_None host) then
       found ← str_in marker host;
       if found then setenv SIGV4 "True";; ret true else ret false
     else ret false) : M bool;
  com ← connect_s3 aws_access_key_id aws_secret_access_key host;
  bucket ← get_bucket com bucket true;
  let s3_key := set_key (Key bucket) key in
  let s3_key :=
    if truthy_str content_type
    then set_metadata s3_key "Content-Type" (default "" content_type)
    else s3_key in
  measured ← with_open fname (λ fid,
    size ← measure_size fname fid;
    sent ← set_contents_from_file s3_key fid cb md5 reduced_redundancy true;
    seek fid 0 SEEK_SET;;
    ret (sent, size));
  when_ switch_validation (delenv SIGV4);;
  ret (bool_decide (measured.1 = Some measured.2)).

(** ** The layout of the composed script, written out *)

(** The fixed swap-provisioning block with a given [dd] block count. *)
Definition swap_block (count : string) : string :=
  "echo " +:+ dq +:+ "making swap file ..." +:+ dq +:+ nl +:+
  "sudo chown ubuntu /mnt" +:+ nl +:+
  "sudo dd if=/dev/zero of=/mnt/swapfile bs=1M count=" +:+ count +:+ nl +:+
  "sudo chown root:root /mnt/swapfile" +:+ nl +:+
  "sudo chmod 600 /mnt/swapfile" +:+ nl +:+
  "sudo mkswap /mnt/swapfile" +:+ nl +:+
  "sudo swapon /mnt/swapfile" +:+ nl +:+
  "echo " +:+ dq +:+ "/mnt/swapfile swap swap defaults 0 0" +:+ dq +:+
    " | sudo tee -a /etc/fstab" +:+ nl +:+
  "sudo swapon -a" +:+ nl +:+
  "echo " +:+ dq +:+ "making swap file ... done" +:+ dq +:+ nl.

(** One install invocation. *)
Definition pip_line (anaconda_path package : string) : string :=
  anaconda_path +:+ "/bin/pip install " +:+ package.

(** The closing block: enter the repository, pull, report, run [cmd]. *)
Definition run_block (repo cmd : string) : string :=
  "(cd /home/ubuntu/github/" +:+ repo +:+ " " +:+ bs +:+ nl +:+
  "  && git pull origin master " +:+ bs +:+ nl +:+
  "  && echo " +:+ dq +:+ "updating code ... done" +:+ dq +:+ " " +:+ bs +:+ nl +:+
  "  && " +:+ cmd +:+ ")" +:+ nl.

(** The whole script around an install section and a swap section. *)
Definition script_layout (anaconda_path env install swap repo cmd : string) : string :=
  "#!/bin/bash" +:+ nl +:+
  "echo " +:+ dq +:+ "updating code ..." +:+ dq +:+ nl +:+
  "source /home/ubuntu/.bashrc" +:+ nl +:+
  "source /home/ubuntu/" +:+ anaconda_path +:+ "/bin/activate " +:+ env +:+ nl +:+
  install +:+ nl +:+
  swap +:+ nl +:+
  run_block repo cmd.

(** What precedes the closing block, after the shebang line. *)
Definition script_body (anaconda_path env install swap : string) : string :=
  "echo " +:+ dq +:+ "updating code ..." +:+ dq +:+ nl +:+
  "source /home/ubuntu/.bashrc" +:+ nl +:+
  "source /home/ubuntu/" +:+ anaconda_path +:+ "/bin/activate " +:+ env +:+ nl +:+
  install +:+ nl +:+
  swap +:+ nl.

(** Parts written one after the other with a separator between
    neighbours: the first part, then every further part behind a
    separator. *)
Fixpoint prefixed_each (sep : string) (parts : list string) : string :=
  match parts with
  | [] => ""
  | p :: rest => sep +:+ p +:+ prefixed_each sep rest
  end.

Definition separated_by (sep : string) (parts : list string) : string :=
  match parts with
  | [] => ""
  | p :: rest => p +:+ prefixed_each sep rest
  end.

(** One install invocation per package, in order, on lines of their
    own. *)
Definition install_section (anaconda_path : string) (packages : list string) : string :=
  separated_by nl (pip_line anaconda_path <$> packages).

Definition swap_section (a : swap_arg) : string :=
  if swap_truthy a then swap_block (swap_str a) else "".

(** ** The command line the builder is meant to produce *)

Definition is_str (v : arg_value) : bool :=
  match v with
  | VStr _ => true
  | _ => false
  end.

(** An entry is well formed when [par_args] carries a list of strings
    and every other name carries a string. *)
Definition entry_ok (item : string * arg_value) : bool :=
  match item.2 with
  | VList l => String.eqb item.1 "par_args" && forallb is_str l
  | VStr _ => negb (String.eqb item.1 "par_args")
  | VInt _ | VNone => false
  end.

(** A value that [' '.join] accepts: a string, or a list of strings. *)
Definition joinable (value : arg_value) : bool :=
  match value with
  | VStr _ => true
  | VList l => forallb is_str l
  | VInt _ | VNone => false
  end.

(** The strings among the items of a list. *)
Definition strings_of (l : list arg_value) : list string :=
  omap as_str l.

(** One [--name value] flag: a list space-separated, a string as given. *)
Definition spec_flag (item : string * arg_value) : string :=
  "--" +:+ item.1 +:+ " " +:+
  match item.2 with
  | VStr s => s
  | VList l => separated_by " " (strings_of l)
  | VInt _ | VNone => ""
  end.

Definition spec_parallel_cmd (parallel_args : list (string * arg_value)) : string :=
  "python run_parallel.py " +:+ separated_by " " (spec_flag <$> parallel_args).

(** ** Observations on a run *)

Definition host_has_marker (host : host_arg) : bool :=
  match host with
  | HostStr s => PyStr.contains marker s
  | _ => false
  end.

Definition is_env_event (e : event) : bool :=
  match e with
  | EnvSet _ _ | EnvDel _ => true
  | _ => false
  end.

Definition is_file_write (e : event) : bool :=
  match e with
  | FileWritten _ => true
  | _ => false
  end.

(** A file object a caller could go on reading: open, at the start. *)
Definition handle_usable (h : handle) : Prop :=
  h_closed h = false ∧ h_pos h = 0.

(** A computation that leaves [os.environ] alone: the map is unchanged
    and nothing it logs is an access to it. *)
Definition env_quiet {A} (m : M A) : Prop :=
  ∀ w, environ (m w).2 = environ w
       ∧ ∃ evs, log (m w).2 = log w ++ evs
                ∧ forallb (λ e, negb (is_env_event e)) evs = true.

(** ** Sample worlds *)

Definition sample_object : s3_object :=
  S3Object [Byte.x01; Byte.x02; Byte.x03] [] None false.

(** A flat working directory: a path can be opened for writing when it
    is not empty and names no subdirectory. *)
Definition flat_directory (path : string) : bool :=
  negb (String.eqb path "") && negb (PyStr.contains "/" path).

(** A store that keeps what it is sent. *)
Definition keeps_payload (bucket key : string) (metadata : list (string * string))
    (md5 : option (string * string)) (reduced_redundancy : bool)
    (payload : list Byte.byte) : option s3_object :=
  Some (S3Object payload metadata md5 reduced_redundancy).

(** One bucket [b] holding one key [k]; one local file [in.bin]; a store
    client that reports every payload in full. *)
Definition sample_world : world :=
  World ∅ {["in.bin" := [Byte.x0a; Byte.x0b]]} flat_directory []
        {["b" := {["k" := sample_object]}]}
        (λ payload, Some (Z.of_nat (length payload))) keeps_payload [].

(** The same, with a client that reports one byte less. *)
Definition lossy_world : world :=
  World ∅ {["in.bin" := [Byte.x0a; Byte.x0b]]} flat_directory []
        {["b" := {["k" := sample_object]}]}
        (λ payload, Some (Z.of_nat (length payload) - 1)%Z) keeps_payload [].

(** The same as [sample_world], with a local file that is not UTF-8. *)
Definition binary_world : world :=
  with_files <["raw.bin" := [Byte.xff; Byte.xfe]]> sample_world.

Definition eu_host : host_arg := HostStr "s3.eu-central-1.amazonaws.com".
Definition us_host : host_arg := HostStr "s3.amazonaws.com".

(** The line [download_from_s3] prints for a key that is not there. *)
Definition missing_msg (key : string) : string :=
  "could not get " +:+ key +:+ " : it does not exist".

(** * Properties of the script composer *)

Lemma str_app_cons (ch : ascii) (a b : string) :
  String ch a +:+ b = String ch (a +:+ b).
Proof. reflexivity. Qed.

Lemma str_app_assoc (a b c : string) : (a +:+ b) +:+ c = a +:+ (b +:+ c).
Proof.
  induction a as [|ch a IH]; [done|].
  rewrite !str_app_cons. by rewrite IH.
Qed.

Lemma str_app_nil_r (a : string) : a +:+ "" = a.
Proof.
  induction a as [|ch a IH]; [done|].
  rewrite str_app_cons. by rewrite IH.
Qed.

(** The code's [join] writes its parts as [separated_by] says. *)
Lemma prefixed_each_join (sep p : string) (rest : list string) :
  p +:+ prefixed_each sep rest = PyStr.join sep (p :: rest).
Proof.
  revert p. induction rest as [|q rest IH]; intros p.
  - apply str_app_nil_r.
  - cbn [prefixed_each]. rewrite IH. reflexivity.
Qed.

Lemma join_separated_by (sep : string) (parts : list string) :
  PyStr.join sep parts = separated_by sep parts.
Proof. destruct parts as [|p rest]; [done|]. symmetry. apply prefixed_each_join. Qed.

Lemma separated_by_one (sep p : string) : separated_by sep [p] = p.
Proof. apply str_app_nil_r. Qed.

Lemma separated_by_more (sep p q : string) (rest : list string) :
  separated_by sep (p :: q :: rest) = p +:+ sep +:+ separated_by sep (q :: rest).
Proof. reflexivity. Qed.

Lemma format_pip_line (anaconda_path package : string) :
  PyStr.format pip_line_tmp
    [("anaconda_path", anaconda_path); ("package", package)]
  = Some (pip_line anaconda_path package).
Proof.
  transitivity (Some (anaconda_path +:+ "/bin/pip install " +:+ package +:+ "")).
  - reflexivity.
  - unfold pip_line. by rewrite str_app_nil_r.
Qed.

Lemma format_swap_tmp (count : string) :
  PyStr.format _base_swap_tmp [("add_swap_file", count)] = Some (swap_block count).
Proof. reflexivity. Qed.

Lemma format_base_cmd (anaconda_path env install swap repo cmd : string) :
  PyStr.format _base_cmd_tmp
    [("anaconda_path", anaconda_path); ("install_pip", install);
     ("swapfile_cmd", swap); ("repo", repo); ("env", env); ("cmd", cmd)]
  = Some (script_layout anaconda_path env install swap repo cmd).
Proof. reflexivity. Qed.

Lemma mapM_pip_lines (anaconda_path : string) (packages : list string) :
  mapM (λ package,
          PyStr.format pip_line_tmp
            [("anaconda_path", anaconda_path); ("package", package)])
       packages
  = Some (pip_line anaconda_path <$> packages).
Proof.
  induction packages as [|p ps IH]; [done|].
  cbn [mapM]. rewrite IH, format_pip_line. reflexivity.
Qed.

(** The composer never raises, and its result has the layout above. *)
Lemma make_start_script_layout (cmd repo anaconda_path env : string)
    (install_pip : list string) (add_swap_file : swap_arg) :
  make_start_script cmd repo anaconda_path env install_pip add_swap_file
  = Some (script_layout anaconda_path env
            (install_section anaconda_path install_pip)
            (swap_section add_swap_file) repo cmd).
Proof.
  unfold make_start_script, swap_section, install_section.
  rewrite mapM_pip_lines. cbn [fmap option_fmap option_map].
  rewrite join_separated_by.
  destruct (swap_truthy add_swap_file).
  - rewrite format_swap_tmp. cbn [mbind option_bind].
    destruct install_pip as [|p ps]; cbn [decide length]; apply format_base_cmd.
  - cbn [mbind option_bind].
    destruct install_pip as [|p ps]; apply format_base_cmd.
Qed.

Lemma script_layout_split (anaconda_path env install swap repo cmd : string) :
  script_layout anaconda_path env install swap repo cmd
  = "#!/bin/bash" +:+ nl +:+
    script_body anaconda_path env install swap +:+ run_block repo cmd.
Proof.
  unfold script_layout, script_body.
  by rewrite !str_app_assoc.
Qed.

(** C4: for every argument combination the composer returns a script that
    begins with the shebang line and ends with the closing block, whose
    last command is the caller's [cmd], run inside
    [/home/ubuntu/github/<repo>] (the [ubuntu] user's [~/github/<repo>])
    after [git pull origin master]. *)
Theorem make_start_script_shebang_and_final_command
    (cmd repo anaconda_path env : string) (install_pip : list string)
    (add_swap_file : swap_arg) :
  ∃ body,
    make_start_script cmd repo anaconda_path env install_pip add_swap_file
    = Some ("#!/bin/bash" +:+ nl +:+ body +:+
            "(cd /home/ubuntu/github/" +:+ repo +:+ " " +:+ bs +:+ nl +:+
            "  && git pull origin master " +:+ bs +:+ nl +:+
            "  && echo " +:+ dq +:+ "updating code ... done" +:+ dq +:+ " " +:+ bs +:+ nl +:+
            "  && " +:+ cmd +:+ ")" +:+ nl).
Proof.
  eexists. rewrite make_start_script_layout, script_layout_split. reflexivity.
Qed.

(** The example of the specification, evaluated. *)
Example make_start_script_train_example :
  make_start_script_default "python train.py" "myrepo" "miniconda3" "py38"
  = Some ("#!/bin/bash" +:+ nl +:+
          "echo " +:+ dq +:+ "updating code ..." +:+ dq +:+ nl +:+
          "source /home/ubuntu/.bashrc" +:+ nl +:+
          "source /home/ubuntu/miniconda3/bin/activate py38" +:+ nl +:+
          nl +:+
          nl +:+
          "(cd /home/ubuntu/github/myrepo " +:+ bs +:+ nl +:+
          "  && git pull origin master " +:+ bs +:+ nl +:+
          "  && echo " +:+ dq +:+ "updating code ... done" +:+ dq +:+ " " +:+ bs +:+ nl +:+
          "  && python train.py)" +:+ nl).
Proof. vm_compute. reflexivity. Qed.

(** C6: the install section of the script is empty for an empty package
    list, and for N packages consists of N invocations
    [<anaconda_path>/bin/pip install <package>], one per package in
    order, a newline between neighbours. *)
Theorem make_start_script_install_lines
    (cmd repo anaconda_path env : string) (install_pip : list string)
    (add_swap_file : swap_arg) :
  make_start_script cmd repo anaconda_path env install_pip add_swap_file
  = Some (script_layout anaconda_path env
            (install_section anaconda_path install_pip)
            (swap_section add_swap_file) repo cmd)
  ∧ install_section anaconda_path [] = ""
  ∧ (∀ package,
       install_section anaconda_path [package]
       = anaconda_path +:+ "/bin/pip install " +:+ package)
  ∧ (∀ package next rest,
       install_section anaconda_path (package :: next :: rest)
       = anaconda_path +:+ "/bin/pip install " +:+ package +:+ nl +:+
         install_section anaconda_path (next :: rest)).
Proof.
  split; [apply make_start_script_layout|]. split; [done|]. split.
  - intros package. unfold install_section. cbn [fmap list_fmap].
    rewrite separated_by_one. reflexivity.
  - intros package next rest. unfold install_section. cbn [fmap list_fmap].
    rewrite separated_by_more. unfold pip_line at 1. by rewrite !str_app_assoc.
Qed.

(** Two packages, written out. *)
Example make_start_script_two_packages :
  make_start_script "python train.py" "myrepo" "miniconda3" "py38"
    ["numpy"; "scipy"] (SwapBool false)
  = Some ("#!/bin/bash" +:+ nl +:+
          "echo " +:+ dq +:+ "updating code ..." +:+ dq +:+ nl +:+
          "source /home/ubuntu/.bashrc" +:+ nl +:+
          "source /home/ubuntu/miniconda3/bin/activate py38" +:+ nl +:+
          "miniconda3/bin/pip install numpy" +:+ nl +:+
          "miniconda3/bin/pip install scipy" +:+ nl +:+
          nl +:+
          "(cd /home/ubuntu/github/myrepo " +:+ bs +:+ nl +:+
          "  && git pull origin master " +:+ bs +:+ nl +:+
          "  && echo " +:+ dq +:+ "updating code ... done" +:+ dq +:+ " " +:+ bs +:+ nl +:+
          "  && python train.py)" +:+ nl).
Proof. vm_compute. reflexivity. Qed.

(** C7: the swap section of the script is empty when [add_swap_file] is
    falsy ([False], [0], or omitted) and otherwise is the fixed
    provisioning block with [count=] set to the argument as given. *)
Theorem make_start_script_swap_block
    (cmd repo anaconda_path env : string) (install_pip : list string)
    (add_swap_file : swap_arg) :
  make_start_script cmd repo anaconda_path env install_pip add_swap_file
  = Some (script_layout anaconda_path env
            (install_section anaconda_path install_pip)
            (if swap_truthy add_swap_file
             then swap_block (swap_str add_swap_file) else "")
            repo cmd)
  ∧ (∀ n : Z, swap_section (SwapInt n)
              = if (n =? 0)%Z then "" else swap_block (pretty n))
  ∧ swap_section (SwapBool false) = ""
  ∧ make_start_script_default cmd repo anaconda_path env
    = Some (script_layout anaconda_path env "" "" repo cmd).
Proof.
  split; [apply make_start_script_layout|].
  split; [|split; [done|apply make_start_script_layout]].
  intros n. unfold swap_section, swap_truthy, swap_str.
  by destruct (n =? 0)%Z.
Qed.

(** * Properties of the parallel-run command builder *)

Lemma format_flag (param value : string) :
  PyStr.format flag_tmp [("param", param); ("value", value)]
  = Some ("--" +:+ param +:+ " " +:+ value).
Proof.
  transitivity (Some ("--" +:+ param +:+ " " +:+ value +:+ "")).
  - reflexivity.
  - by rewrite str_app_nil_r.
Qed.

Lemma percent_parallel (arg : string) :
  PyStr.percent parallel_tmp arg = Some ("python run_parallel.py " +:+ arg).
Proof.
  transitivity (Some ("python run_parallel.py " +:+ arg +:+ "")).
  - reflexivity.
  - by rewrite str_app_nil_r.
Qed.

Lemma mapM_as_str (l : list arg_value) :
  forallb is_str l = true → mapM as_str l = Some (strings_of l).
Proof.
  induction l as [|v l IH]; [done|]. cbn [forallb].
  intros [Hv Hl]%andb_true_iff. destruct v; try done.
  cbn [mapM]. rewrite (IH Hl). reflexivity.
Qed.

Lemma strings_of_strs (l : list string) : strings_of (VStr <$> l) = l.
Proof.
  unfold strings_of. induction l as [|s l IH]; [done|].
  cbn. f_equal. exact IH.
Qed.

(** On a well-formed entry the value of the flag is there, and the flag
    is the one meant. *)
Lemma flag_ok (str_of_list : list arg_value → string)
    (item : string * arg_value) :
  entry_ok item = true →
  (flag_value str_of_list item.1 item.2
   ≫= λ value, PyStr.format flag_tmp [("param", item.1); ("value", value)])
  = Some (spec_flag item).
Proof.
  destruct item as [param [s|n| |l]]; unfold entry_ok, spec_flag, flag_value;
    cbn [fst snd]; try done.
  - intros ->%negb_true_iff. cbn [mbind option_bind py_str]. apply format_flag.
  - intros [-> Hl]%andb_true_iff. unfold join_value.
    rewrite (mapM_as_str l Hl). cbn [fmap option_fmap option_map mbind option_bind].
    rewrite join_separated_by. apply format_flag.
Qed.

Lemma mapM_flags (str_of_list : list arg_value → string)
    (parallel_args : list (string * arg_value)) :
  forallb entry_ok parallel_args = true →
  mapM (λ item : string * arg_value,
          flag_value str_of_list item.1 item.2
          ≫= λ value, PyStr.format flag_tmp [("param", item.1); ("value", value)])
       parallel_args
  = Some (spec_flag <$> parallel_args).
Proof.
  induction parallel_args as [|item rest IH]; [done|]. cbn [forallb].
  intros [Hitem Hrest]%andb_true_iff.
  cbn [mapM]. rewrite (flag_ok str_of_list item Hitem), (IH Hrest). reflexivity.
Qed.

(** C8: for a mapping whose [par_args] entry is a list of strings and
    whose other entries are strings, the command is
    [python run_parallel.py] followed by one [--<name> <value>] flag per
    entry, in iteration order, a space between neighbours, the list
    written with a space between its elements. *)
Theorem get_run_parallel_script_flags (str_of_list : list arg_value → string)
    (parallel_args : list (string * arg_value)) :
  forallb entry_ok parallel_args = true →
  get_run_parallel_script str_of_list parallel_args
  = Some ("python run_parallel.py " +:+
          separated_by " " (spec_flag <$> parallel_args))
  ∧ (∀ name s, spec_flag (name, VStr s) = "--" +:+ name +:+ " " +:+ s)
  ∧ (∀ name l, spec_flag (name, VList (VStr <$> l))
               = "--" +:+ name +:+ " " +:+ separated_by " " l)
  ∧ (∀ sep, separated_by sep [] = "")
  ∧ (∀ sep p, separated_by sep [p] = p)
  ∧ (∀ sep p q rest,
       separated_by sep (p :: q :: rest)
       = p +:+ sep +:+ separated_by sep (q :: rest)).
Proof.
  intros Hok. split.
  - unfold get_run_parallel_script. rewrite (mapM_flags str_of_list _ Hok).
    cbn [mbind option_bind]. rewrite percent_parallel, join_separated_by.
    reflexivity.
  - split; [done|]. split.
    + intros name l. unfold spec_flag. cbn [fst snd].
      by rewrite strings_of_strs.
    + split; [done|]. split; [apply separated_by_one|apply separated_by_more].
Qed.

Lemma get_run_parallel_script_flags_witness :
  get_run_parallel_script (λ _, "")
    [("n_jobs", VStr "4"); ("par_args", VList [VStr "a"; VStr "b"]);
     ("out", VStr "res")]
  = Some "python run_parallel.py --n_jobs 4 --par_args a b --out res".
Proof.
  exact (proj1
    (get_run_parallel_script_flags (λ _, "")
       [("n_jobs", VStr "4"); ("par_args", VList [VStr "a"; VStr "b"]);
        ("out", VStr "res")] eq_refl)).
Defined.


(** * Frame properties: who touches [os.environ] *)

Lemma bind_ret_l {A B} (a : A) (f : A → M B) : bind (ret a) f = f a.
Proof. reflexivity. Qed.

Lemma bind_raise_l {A B} (e : exn) (f : A → M B) : bind (raise e) f = raise e.
Proof. reflexivity. Qed.

Lemma env_quiet_ret {A} (a : A) : env_quiet (ret a).
Proof. intros w. split; [done|]. exists []. by rewrite app_nil_r. Qed.

Lemma env_quiet_raise {A} (e : exn) : env_quiet (raise (A:=A) e).
Proof. intros w. split; [done|]. exists []. by rewrite app_nil_r. Qed.

Lemma env_quiet_get_world : env_quiet get_world.
Proof. intros w. split; [done|]. exists []. by rewrite app_nil_r. Qed.

Lemma env_quiet_bind {A B} (m : M A) (f : A → M B) :
  env_quiet m → (∀ a, env_quiet (f a)) → env_quiet (bind m f).
Proof.
  intros Hm Hf w. unfold bind.
  destruct (Hm w) as [Henv (evs & Hlog & Hq)].
  destruct (m w) as [[a|e] w1]; cbn [fst snd] in *.
  - destruct (Hf a w1) as [Henv2 (evs2 & Hlog2 & Hq2)].
    split; [congruence|]. exists (evs ++ evs2).
    rewrite Hlog2, Hlog, app_assoc, forallb_app, Hq, Hq2. done.
  - split; [done|]. by exists evs.
Qed.

Lemma env_quiet_try_except {A} (body handler : M A) :
  env_quiet body → env_quiet handler → env_quiet (try_except body handler).
Proof.
  intros Hb Hh w. unfold try_except.
  destruct (Hb w) as [Henv (evs & Hlog & Hq)].
  destruct (body w) as [[a|e] w1]; cbn [fst snd] in *.
  - split; [done|]. by exists evs.
  - destruct (Hh w1) as [Henv2 (evs2 & Hlog2 & Hq2)].
    split; [congruence|]. exists (evs ++ evs2).
    rewrite Hlog2, Hlog, app_assoc, forallb_app, Hq, Hq2. done.
Qed.

Lemma env_quiet_finally {A} (body : M A) (cleanup : M unit) :
  env_quiet body → env_quiet cleanup → env_quiet (finally body cleanup).
Proof.
  intros Hb Hc w. unfold finally.
  destruct (Hb w) as [Henv (evs & Hlog & Hq)].
  destruct (body w) as [r w1]; cbn [fst snd] in *.
  destruct (Hc w1) as [Henv2 (evs2 & Hlog2 & Hq2)].
  assert (environ (cleanup w1).2 = environ w
          ∧ ∃ evs', log (cleanup w1).2 = log w ++ evs'
                    ∧ forallb (λ e, negb (is_env_event e)) evs' = true) as Hgoal.
  { split; [congruence|]. exists (evs ++ evs2).
    rewrite Hlog2, Hlog, app_assoc, forallb_app, Hq, Hq2. done. }
  by destruct (cleanup w1) as [[u|e] w2].
Qed.

Lemma env_quiet_modify (f : world → world) :
  (∀ w, environ (f w) = environ w) → (∀ w, log (f w) = log w) →
  env_quiet (modify f).
Proof.
  intros He Hl w. split; [apply He|]. exists [].
  cbn. by rewrite Hl, app_nil_r.
Qed.

Lemma env_quiet_emit (ev : event) : is_env_event ev = false → env_quiet (emit ev).
Proof.
  intros Hev w. split; [done|]. exists [ev]. split; [done|].
  cbn. by rewrite Hev.
Qed.

Ltac env_quiet_step :=
  lazymatch goal with
  | |- env_quiet (bind _ _) => apply env_quiet_bind; [|intros ?]
  | |- env_quiet (ret _) => apply env_quiet_ret
  | |- env_quiet (raise _) => apply env_quiet_raise
  | |- env_quiet get_world => apply env_quiet_get_world
  | |- env_quiet (emit _) => apply env_quiet_emit; reflexivity
  | |- env_quiet (modify _) => apply env_quiet_modify; reflexivity
  | |- env_quiet (try_except _ _) => apply env_quiet_try_except
  | |- env_quiet (finally _ _) => apply env_quiet_finally
  | |- env_quiet (match ?x with _ => _ end) => destruct x
  end.

Ltac env_quiet_auto := repeat env_quiet_step.

Lemma env_quiet_live_handle (fd : nat) : env_quiet (live_handle fd).
Proof. unfold live_handle. env_quiet_auto. Qed.

Lemma env_quiet_file_length (h : handle) : env_quiet (file_length h).
Proof. unfold file_length. env_quiet_auto. Qed.

Lemma env_quiet_set_pos (fd pos : nat) : env_quiet (set_pos fd pos).
Proof. unfold set_pos. env_quiet_auto. Qed.

Lemma env_quiet_seek (fd : nat) (offset : Z) (wh : whence) : env_quiet (seek fd offset wh).
Proof.
  unfold seek.
  apply env_quiet_bind; [apply env_quiet_live_handle|intros h].
  apply env_quiet_bind; [apply env_quiet_file_length|intros n].
  env_quiet_step; [apply env_quiet_raise|].
  apply env_quiet_bind; [apply env_quiet_set_pos|intros _].
  env_quiet_auto.
Qed.

Lemma env_quiet_measure_size (fname : pyval) (fid : nat) :
  env_quiet (measure_size fname fid).
Proof.
  unfold measure_size, tell, fileno, os_fstat_size.
  apply env_quiet_try_except.
  - apply env_quiet_bind.
    + destruct fname; [apply env_quiet_raise|].
      apply env_quiet_bind; [apply env_quiet_live_handle|intros ?; apply env_quiet_ret].
    + intros fd. apply env_quiet_bind; [apply env_quiet_live_handle|intros h].
      apply env_quiet_bind; [apply env_quiet_file_length|intros ?; apply env_quiet_ret].
  - apply env_quiet_bind; [apply env_quiet_seek|intros _].
    apply env_quiet_bind; [apply env_quiet_live_handle|intros ?; apply env_quiet_ret].
Qed.

Lemma env_quiet_set_contents_from_file (k : s3key) (fid : nat)
    (cb : option callback) (md5 : option (string * string)) (rr rewind : bool) :
  env_quiet (set_contents_from_file k fid cb md5 rr rewind).
Proof.
  unfold set_contents_from_file.
  apply env_quiet_bind; [apply env_quiet_live_handle|intros h].
  apply env_quiet_bind; [apply env_quiet_get_world|intros w].
  destruct (files w !! h_path h); [|apply env_quiet_raise].
  destruct (negb _); [apply env_quiet_raise|].
  apply env_quiet_bind; [apply env_quiet_emit; reflexivity|intros _].
  apply env_quiet_bind.
  { destruct (put_stored w _ _ _ _ _ _);
      [apply env_quiet_modify; reflexivity|apply env_quiet_ret]. }
  intros _. apply env_quiet_bind; [apply env_quiet_set_pos|intros _].
  apply env_quiet_ret.
Qed.

Lemma env_quiet_with_open {A} (fname : pyval) (body : nat → M A) :
  (∀ fid, env_quiet (body fid)) → env_quiet (with_open fname body).
Proof.
  intros Hbody. unfold with_open, open_file, close_file.
  apply env_quiet_bind.
  - env_quiet_auto.
  - intros fid. apply env_quiet_finally; [apply Hbody|]. env_quiet_auto.
Qed.

Lemma env_quiet_get_bucket (com : connection) (name : string) (validate : bool) :
  env_quiet (get_bucket com name validate).
Proof. unfold get_bucket. destruct validate; env_quiet_auto. Qed.

Lemma env_quiet_key_exists (k : s3key) : env_quiet (key_exists k).
Proof. unfold key_exists. env_quiet_auto. Qed.

Lemma env_quiet_bucket_get_key (b : bucket_ref) (name : string) :
  env_quiet (bucket_get_key b name).
Proof. unfold bucket_get_key. env_quiet_auto. Qed.

Lemma env_quiet_get_contents_to_filename (k : option s3key) (fname : string) :
  env_quiet (get_contents_to_filename k fname).
Proof. unfold get_contents_to_filename. env_quiet_auto. Qed.

Lemma env_quiet_connect_s3 (aws_access_key_id aws_secret_access_key : string)
    (host : host_arg) :
  env_quiet (connect_s3 aws_access_key_id aws_secret_access_key host).
Proof. unfold connect_s3. env_quiet_auto. Qed.

Lemma env_quiet_print_missing (key : string) :
  env_quiet (msg ← formatted (PyStr.percent "could not get %s : it does not exist" key);
             print msg).
Proof. unfold formatted, print. env_quiet_auto. Qed.

(** Without the marker the host test of [download_from_s3] decides
    against switching, and does nothing else. *)
Lemma download_host_test_no_marker (host : host_arg) :
  host_has_marker host = false →
  (if negb (is_None host) && negb (isinstance_NoHostProvided host) then
     found ← str_in marker host;
     if found then setenv SIGV4 "True";; ret true else ret false
   else ret false) = ret false.
Proof.
  intros Hhost. destruct host as [| |s]; cbn in *; [done..|].
  unfold str_in. by rewrite bind_ret_l, Hhost.
Qed.

(** In [upload_to_s3] the test is also reached by a [NoHostProvided]
    instance, on which it raises. *)
Lemma upload_host_test_no_marker (host : host_arg) :
  host_has_marker host = false →
  (if negb (is_None host) then
     found ← str_in marker host;
     if found then setenv SIGV4 "True";; ret true else ret false
   else ret false)
  = if isinstance_NoHostProvided host then raise TypeError else ret false.
Proof.
  intros Hhost. destruct host as [| |s]; cbn in *; [done..|].
  unfold str_in. by rewrite bind_ret_l, Hhost.
Qed.

Lemma env_quiet_download (aws_access_key_id aws_secret_access_key : string)
    (bucket fname key : string) (dry_run : bool) (host : host_arg) :
  host_has_marker host = false →
  env_quiet (download_from_s3 aws_access_key_id aws_secret_access_key
               bucket fname key dry_run host).
Proof.
  intros Hhost. unfold download_from_s3.
  rewrite (download_host_test_no_marker host Hhost), bind_ret_l.
  apply env_quiet_bind; [apply env_quiet_connect_s3|intros com].
  apply env_quiet_bind; [apply env_quiet_get_bucket|intros b].
  apply env_quiet_bind; [apply env_quiet_key_exists|intros present].
  unfold when_. destruct present; [destruct dry_run; cbn [negb]|].
  - apply env_quiet_ret.
  - apply env_quiet_bind; [apply env_quiet_bucket_get_key|intros k].
    apply env_quiet_bind; [apply env_quiet_get_contents_to_filename|intros _].
    env_quiet_auto.
  - apply env_quiet_bind; [unfold formatted; env_quiet_auto|intros msg].
    unfold print. env_quiet_auto.
Qed.

Lemma env_quiet_upload (aws_access_key_id aws_secret_access_key : string)
    (fname : pyval) (bucket key : string) (cb : option callback)
    (md5 : option (string * string)) (reduced_redundancy : bool)
    (content_type : option string) (host : host_arg) :
  host_has_marker host = false →
  env_quiet (upload_to_s3 aws_access_key_id aws_secret_access_key fname
               bucket key cb md5 reduced_redundancy content_type host).
Proof.
  intros Hhost. unfold upload_to_s3.
  rewrite (upload_host_test_no_marker host Hhost).
  destruct (isinstance_NoHostProvided host).
  { rewrite bind_raise_l. apply env_quiet_raise. }
  rewrite bind_ret_l.
  apply env_quiet_bind; [apply env_quiet_connect_s3|intros com].
  apply env_quiet_bind; [apply env_quiet_get_bucket|intros b].
  apply env_quiet_bind.
  - apply env_quiet_with_open. intros fid.
    apply env_quiet_bind; [apply env_quiet_measure_size|intros size].
    apply env_quiet_bind; [apply env_quiet_set_contents_from_file|intros sent].
    apply env_quiet_bind; [apply env_quiet_seek|intros _]. apply env_quiet_ret.
  - intros measured. unfold when_. env_quiet_auto.
Qed.

(** * Running the transfer wrappers *)

Lemma lookup_snoc_last {A} (l : list A) (x : A) : (l ++ [x]) !! length l = Some x.
Proof. by apply list_lookup_middle. Qed.

Lemma alter_snoc_last {A} (f : A → A) (l : list A) (x : A) :
  alter f (length l) (l ++ [x]) = l ++ [f x].
Proof. induction l as [|y l IH]; [done|]. cbn. f_equal. exact IH. Qed.

Lemma of_nat_ltb_0 (n : nat) : (Z.of_nat n <? 0)%Z = false.
Proof. apply Z.ltb_ge. lia. Qed.

Lemma percent_missing (key : string) :
  PyStr.percent "could not get %s : it does not exist" key
  = Some (missing_msg key).
Proof. reflexivity. Qed.

(** One step of symbolic execution: unfold the monad, the primitives and
    the record projections, and nothing else. *)
Ltac run_step :=
  lazy beta iota zeta delta
    [download_from_s3 upload_to_s3 with_open measure_size
     set_contents_from_file get_contents_to_filename bucket_get_key
     key_exists get_bucket connect_s3 str_in seek tell close_file
     open_file live_handle file_length set_pos fileno os_fstat_size
     setenv delenv print formatted when_ emit modify get_world
     finally try_except raise bind ret
     with_environ with_files with_handles with_s3 with_log
     environ files writable handles s3 put_reply put_stored log
     h_path h_pos h_closed k_bucket k_name k_metadata b_name o_body o_metadata
     Key set_key set_metadata lookup_object
     is_None isinstance_NoHostProvided negb andb fst snd].

Ltac run_with tac :=
  repeat (progress (run_step;
    rewrite ?lookup_snoc_last, ?alter_snoc_last, ?Z.add_0_r, ?Nat2Z.id,
      ?of_nat_ltb_0, ?Z.ltb_irrefl, ?drop_0, ?lookup_insert_eq,
      ?percent_missing; tac)).

(** The store's answer to a put does not matter to what follows. *)
Ltac split_put_stored ps :=
  try match goal with
      | |- context [ps ?b ?k ?m ?c ?r ?p] => destruct (ps b k m c r p)
      end.

(** A host that is not a string stops either wrapper in the connection,
    before anything has happened. *)
Lemma download_raises_bad_host (id sec bucket fname key : string)
    (dry_run : bool) (host : host_arg) (w : world) :
  host = HostNone ∨ host = HostNoHostProvided →
  download_from_s3 id sec bucket fname key dry_run host w = (Raise TypeError, w).
Proof. by intros [-> | ->]. Qed.

Lemma upload_raises_bad_host (id sec : string) (fname : pyval)
    (bucket key : string) (cb : option callback)
    (md5 : option (string * string)) (rr : bool) (ct : option string)
    (host : host_arg) (w : world) :
  host = HostNone ∨ host = HostNoHostProvided →
  upload_to_s3 id sec fname bucket key cb md5 rr ct host w = (Raise TypeError, w).
Proof. by intros [-> | ->]. Qed.

Lemma host_cases (host : host_arg) :
  (host = HostNone ∨ host = HostNoHostProvided) ∨ ∃ h, host = HostStr h.
Proof. destruct host; eauto. Qed.

(** The complete account of a call of [upload_to_s3] that gets through:
    a string for the host, an existing bucket, an existing file that
    decodes. *)
Lemma upload_run (id sec p bucket key : string) (cb : option callback)
    (md5 : option (string * string)) (rr : bool) (ct : option string)
    (h : string) (w : world) (content : list Byte.byte)
    (objs : gmap string s3_object) :
  files w !! p = Some content →
  UTF8.valid content = true →
  s3 w !! bucket = Some objs →
  let r := upload_to_s3 id sec (PStr p) bucket key cb md5 rr ct (HostStr h) w in
  let fd := length (handles w) in
  let flag := PyStr.contains marker h in
  r.1 = Ret (bool_decide (put_reply w content = Some (Z.of_nat (length content))))
  ∧ handles r.2 = handles w ++ [Handle p 0 true]
  ∧ log r.2 = log w ++ (if flag then [EnvSet SIGV4 "True"] else [])
                ++ [S3HeadBucket bucket; FileOpened p fd;
                    FileSeek fd (length content); S3Put bucket key cb;
                    FileSeek fd 0; FileClosed fd]
                ++ (if flag then [EnvDel SIGV4] else [])
  ∧ environ r.2 = (if flag then delete SIGV4 (environ w) else environ w)
  ∧ files r.2 = files w.
Proof.
  intros Hf Hv Hb. cbv zeta. destruct w as [en fs wr hs st pr ps lg].
  cbn in Hf, Hb.
  destruct (truthy_str ct) eqn:Et;
    (destruct (PyStr.contains marker h) eqn:Em);
    run_with ltac:(rewrite ?Et, ?Em, ?Hf, ?Hb, ?Hv, ?delete_insert_eq;
                   split_put_stored ps);
    change (Z.to_nat 0) with 0;
    rewrite <- ?app_assoc; done.
Qed.

(** What a failing call of [upload_to_s3] leaves behind. *)
Lemma upload_raises_missing_bucket (id sec : string) (fname : pyval)
    (bucket key : string) (cb : option callback)
    (md5 : option (string * string)) (rr : bool) (ct : option string)
    (h : string) (w : world) :
  s3 w !! bucket = None →
  let r := upload_to_s3 id sec fname bucket key cb md5 rr ct (HostStr h) w in
  let flag := PyStr.contains marker h in
  r.1 = Raise S3ResponseError
  ∧ environ r.2 = (if flag then <[SIGV4 := "True"]> (environ w) else environ w)
  ∧ log r.2 = log w ++ (if flag then [EnvSet SIGV4 "True"] else [])
                ++ [S3HeadBucket bucket]
  ∧ files r.2 = files w ∧ handles r.2 = handles w ∧ s3 r.2 = s3 w.
Proof.
  intros Hb. cbv zeta. destruct w as [en fs wr hs st pr ps lg]. cbn in Hb.
  destruct (PyStr.contains marker h) eqn:Em;
    run_with ltac:(rewrite ?Em, ?Hb);
    rewrite <- ?app_assoc; done.
Qed.

Lemma upload_raises_missing_file (id sec p bucket key : string)
    (cb : option callback) (md5 : option (string * string)) (rr : bool)
    (ct : option string) (h : string) (w : world)
    (objs : gmap string s3_object) :
  s3 w !! bucket = Some objs →
  files w !! p = None →
  let r := upload_to_s3 id sec (PStr p) bucket key cb md5 rr ct (HostStr h) w in
  let flag := PyStr.contains marker h in
  r.1 = Raise IOError
  ∧ environ r.2 = (if flag then <[SIGV4 := "True"]> (environ w) else environ w)
  ∧ log r.2 = log w ++ (if flag then [EnvSet SIGV4 "True"] else [])
                ++ [S3HeadBucket bucket]
  ∧ files r.2 = files w ∧ handles r.2 = handles w ∧ s3 r.2 = s3 w.
Proof.
  intros Hb Hf. cbv zeta. destruct w as [en fs wr hs st pr ps lg].
  cbn in Hb, Hf.
  destruct (PyStr.contains marker h) eqn:Em;
    run_with ltac:(rewrite ?Em, ?Hb, ?Hf);
    rewrite <- ?app_assoc; done.
Qed.

Lemma upload_raises_file_object (id sec : string) (fd : nat)
    (bucket key : string) (cb : option callback)
    (md5 : option (string * string)) (rr : bool) (ct : option string)
    (h : string) (w : world) (objs : gmap string s3_object) :
  s3 w !! bucket = Some objs →
  let r := upload_to_s3 id sec (PFile fd) bucket key cb md5 rr ct (HostStr h) w in
  let flag := PyStr.contains marker h in
  r.1 = Raise TypeError
  ∧ environ r.2 = (if flag then <[SIGV4 := "True"]> (environ w) else environ w)
  ∧ log r.2 = log w ++ (if flag then [EnvSet SIGV4 "True"] else [])
                ++ [S3HeadBucket bucket]
  ∧ files r.2 = files w ∧ handles r.2 = handles w ∧ s3 r.2 = s3 w.
Proof.
  intros Hb. cbv zeta. destruct w as [en fs wr hs st pr ps lg]. cbn in Hb.
  destruct (PyStr.contains marker h) eqn:Em;
    run_with ltac:(rewrite ?Em, ?Hb);
    rewrite <- ?app_assoc; done.
Qed.

Lemma upload_raises_undecodable (id sec p bucket key : string)
    (cb : option callback) (md5 : option (string * string)) (rr : bool)
    (ct : option string) (h : string) (w : world) (content : list Byte.byte)
    (objs : gmap string s3_object) :
  files w !! p = Some content →
  UTF8.valid content = false →
  s3 w !! bucket = Some objs →
  let r := upload_to_s3 id sec (PStr p) bucket key cb md5 rr ct (HostStr h) w in
  let flag := PyStr.contains marker h in
  r.1 = Raise UnicodeDecodeError
  ∧ environ r.2 = (if flag then <[SIGV4 := "True"]> (environ w) else environ w)
  ∧ files r.2 = files w ∧ s3 r.2 = s3 w
  ∧ handles r.2 = handles w ++ [Handle p (length content) true].
Proof.
  intros Hf Hv Hb. cbv zeta. destruct w as [en fs wr hs st pr ps lg].
  cbn in Hf, Hb.
  destruct (PyStr.contains marker h) eqn:Em;
    run_with ltac:(rewrite ?Em, ?Hf, ?Hb, ?Hv);
    change (Z.to_nat 0) with 0; done.
Qed.

(** The complete account of a call of [download_from_s3] with a string
    for the host. *)
Lemma download_run (id sec bucket fname key : string) (dry_run : bool)
    (h : string) (w : world) :
  let r := download_from_s3 id sec bucket fname key dry_run (HostStr h) w in
  let flag := PyStr.contains marker h in
  let pre := if flag then [EnvSet SIGV4 "True"] else [] in
  let post := if flag then [EnvDel SIGV4] else [] in
  let cleared := if flag then delete SIGV4 (environ w) else environ w in
  let kept := if flag then <[SIGV4 := "True"]> (environ w) else environ w in
  match lookup_object w bucket key with
  | None =>
    r.1 = Ret false ∧ files r.2 = files w ∧ environ r.2 = cleared
    ∧ log r.2 = log w ++ pre ++ [S3Head bucket key; Print (missing_msg key)] ++ post
  | Some o =>
    if dry_run then
      r.1 = Ret true ∧ files r.2 = files w ∧ environ r.2 = kept
      ∧ log r.2 = log w ++ pre ++ [S3Head bucket key]
    else if writable w fname then
      r.1 = Ret true ∧ files r.2 = <[fname := o_body o]> (files w)
      ∧ environ r.2 = cleared
      ∧ log r.2 = log w ++ pre
                    ++ [S3Head bucket key; S3Head bucket key; S3Get bucket key;
                        FileWritten fname] ++ post
    else
      r.1 = Raise IOError ∧ files r.2 = files w ∧ environ r.2 = kept
      ∧ log r.2 = log w ++ pre ++ [S3Head bucket key; S3Head bucket key]
  end.
Proof.
  cbv zeta. destruct w as [en fs wr hs st pr ps lg]. unfold lookup_object.
  cbn [s3 writable].
  destruct (st !! bucket) as [objs|] eqn:Hb;
    [destruct (objs !! key) as [o|] eqn:Hk;
       [destruct dry_run; [|destruct (wr fname) eqn:Hw]|]|];
    (destruct (PyStr.contains marker h) eqn:Em);
    run_with ltac:(rewrite ?Em, ?Hb, ?Hk, ?Hw, ?delete_insert_eq);
    rewrite <- ?app_assoc; done.
Qed.

Lemma host_marker_inv (host : host_arg) :
  host_has_marker host = true →
  ∃ h, host = HostStr h ∧ PyStr.contains marker h = true.
Proof. destruct host as [| |h]; [done|done|]. intros Hm. by exists h. Qed.

(** [upload_to_s3] returns only with a string for the host, a path to an
    existing file that decodes, and an existing bucket. *)
Lemma upload_returns_inv (id sec : string) (fname : pyval)
    (bucket key : string) (cb : option callback)
    (md5 : option (string * string)) (rr : bool) (ct : option string)
    (host : host_arg) (w : world) (b : bool) :
  (upload_to_s3 id sec fname bucket key cb md5 rr ct host w).1 = Ret b →
  ∃ h p content objs,
    host = HostStr h ∧ fname = PStr p ∧ files w !! p = Some content
    ∧ UTF8.valid content = true ∧ s3 w !! bucket = Some objs.
Proof.
  intros Hret.
  destruct (host_cases host) as [Hbad|[h ->]].
  { by rewrite (upload_raises_bad_host _ _ _ _ _ _ _ _ _ _ _ Hbad) in Hret. }
  destruct (s3 w !! bucket) as [objs|] eqn:Hb.
  - destruct fname as [p|fd].
    + destruct (files w !! p) as [content|] eqn:Hf.
      * destruct (UTF8.valid content) eqn:Hv; [by eauto 10|].
        destruct (upload_raises_undecodable id sec p bucket key cb md5 rr ct
                    h w content objs Hf Hv Hb) as (Hr & _). congruence.
      * destruct (upload_raises_missing_file id sec p bucket key cb md5 rr ct
                    h w objs Hb Hf) as (Hr & _). congruence.
    + destruct (upload_raises_file_object id sec fd bucket key cb md5 rr ct
                  h w objs Hb) as (Hr & _). congruence.
  - destruct (upload_raises_missing_bucket id sec fname bucket key cb md5 rr ct
                h w Hb) as (Hr & _). congruence.
Qed.

(** * The claims on the transfer wrappers *)

(** C1: on the dry-run return path of [download_from_s3] the signing-mode
    flag set for an [eu-central] host is still set after the call has
    returned [True]: the early [return True] skips the [del]. *)
Theorem download_dry_run_leaves_sigv4_set :
  let r := download_from_s3 "id" "secret" "b" "out.bin" "k" true eu_host
             sample_world in
  environ sample_world !! SIGV4 = None
  ∧ r.1 = Ret true
  ∧ environ r.2 !! SIGV4 = Some "True"
  ∧ log r.2 = [EnvSet SIGV4 "True"; S3Head "b" "k"].
Proof. vm_compute. done. Qed.

(** C2: with a string for the host and a destination that can be opened
    for writing wherever the object is to be fetched, [download_from_s3]
    returns [False] and writes no file when the key is missing, returns
    [True] and writes no file on a dry run of an existing key, and
    otherwise returns [True] with the object's bytes under the destination
    path. *)
Theorem download_from_s3_outcome (id sec bucket fname key : string)
    (dry_run : bool) (h : string) (w : world) :
  (dry_run = false → is_Some (lookup_object w bucket key) →
   writable w fname = true) →
  let r := download_from_s3 id sec bucket fname key dry_run (HostStr h) w in
  ∃ evs, log r.2 = log w ++ evs ∧
  match lookup_object w bucket key with
  | None =>
    r.1 = Ret false ∧ files r.2 = files w
    ∧ forallb (λ e, negb (is_file_write e)) evs = true
  | Some o =>
    if dry_run then
      r.1 = Ret true ∧ files r.2 = files w
      ∧ forallb (λ e, negb (is_file_write e)) evs = true
    else
      r.1 = Ret true ∧ files r.2 = <[fname := o_body o]> (files w)
      ∧ files r.2 !! fname = Some (o_body o)
  end.
Proof.
  intros Hw. cbv zeta.
  pose proof (download_run id sec bucket fname key dry_run h w) as H.
  cbv zeta in H.
  destruct (lookup_object w bucket key) as [o|];
    [destruct dry_run; [|rewrite Hw in H by eauto]|];
    destruct H as (Hr & Hf & _ & Hl);
    eexists; (split; [exact Hl|]); rewrite Hr, Hf;
    (split; [done|]); (split; [done|]);
    rewrite ?lookup_insert_eq; try done;
    by destruct (PyStr.contains marker h).
Qed.

Lemma download_from_s3_outcome_witness :
  let r := download_from_s3 "id" "secret" "b" "out.bin" "k" false us_host
             sample_world in
  ∃ evs, log r.2 = log sample_world ++ evs ∧
  match lookup_object sample_world "b" "k" with
  | None =>
    r.1 = Ret false ∧ files r.2 = files sample_world
    ∧ forallb (λ e, negb (is_file_write e)) evs = true
  | Some o =>
    r.1 = Ret true ∧ files r.2 = <["out.bin" := o_body o]> (files sample_world)
    ∧ files r.2 !! "out.bin" = Some (o_body o)
  end.
Proof.
  exact (download_from_s3_outcome "id" "secret" "b" "out.bin" "k" false
           "s3.amazonaws.com" sample_world
           ltac:(intros _ _; vm_compute; reflexivity)).
Defined.

(** C3: with a string for the host, an existing bucket and an existing
    file that decodes, [upload_to_s3] returns, and it returns [True]
    exactly when the count the client reports equals the size measured
    before; a mismatch (a different count, or [None]) comes back as
    [False], not as an exception. *)
Theorem upload_to_s3_success_iff_sizes_match (id sec p bucket key : string)
    (cb : option callback) (md5 : option (string * string)) (rr : bool)
    (ct : option string) (h : string) (w : world)
    (content : list Byte.byte) (objs : gmap string s3_object) :
  files w !! p = Some content →
  UTF8.valid content = true →
  s3 w !! bucket = Some objs →
  let sent := put_reply w content in
  let size := Z.of_nat (length content) in
  ∃ b, (upload_to_s3 id sec (PStr p) bucket key cb md5 rr ct (HostStr h) w).1
       = Ret b
       ∧ (b = true ↔ sent = Some size)
       ∧ (b = false ↔ sent ≠ Some size).
Proof.
  intros Hf Hv Hb. cbv zeta.
  destruct (upload_run id sec p bucket key cb md5 rr ct h w content objs
              Hf Hv Hb) as (Hr & _).
  eexists. split; [exact Hr|].
  split; [apply bool_decide_eq_true|apply bool_decide_eq_false].
Qed.

Lemma upload_to_s3_success_iff_sizes_match_witness :
  ∃ b, (upload_to_s3 "id" "secret" (PStr "in.bin") "b" "k2" None None false
          None us_host lossy_world).1 = Ret b
       ∧ (b = true ↔ put_reply lossy_world [Byte.x0a; Byte.x0b] = Some 2%Z)
       ∧ (b = false ↔ put_reply lossy_world [Byte.x0a; Byte.x0b] ≠ Some 2%Z).
Proof.
  apply (upload_to_s3_success_iff_sizes_match "id" "secret" "in.bin" "b" "k2"
           None None false None "s3.amazonaws.com" lossy_world
           [Byte.x0a; Byte.x0b] {["k" := sample_object]}).
  - vm_compute. reflexivity.
  - vm_compute. reflexivity.
  - vm_compute. reflexivity.
Defined.

(** C5: a successful upload measures the file by seeking the handle it
    opened to the end, sends it, seeks that handle back to the start, and
    then closes it on leaving the [with] block: once the call has returned
    [True] the rewound handle is closed, and no usable handle is left to
    the caller.  The descriptor is never queried on that handle. *)
Theorem upload_leaves_no_usable_handle :
  let r := upload_to_s3 "id" "secret" (PStr "in.bin") "b" "k2" None None false
             None us_host sample_world in
  r.1 = Ret true
  ∧ log r.2 = [S3HeadBucket "b"; FileOpened "in.bin" 0; FileSeek 0 2;
               S3Put "b" "k2" None; FileSeek 0 0; FileClosed 0]
  ∧ handles r.2 = [Handle "in.bin" 0 true]
  ∧ ¬ ∃ fd h, handles r.2 !! fd = Some h ∧ handle_usable h.
Proof.
  cbv zeta.
  assert (handles (upload_to_s3 "id" "secret" (PStr "in.bin") "b" "k2" None None
                     false None us_host sample_world).2
          = [Handle "in.bin" 0 true]) as Heq by (by vm_compute).
  split; [by vm_compute|]. split; [by vm_compute|]. split; [exact Heq|].
  intros (fd & h & Hh & Hopen & _).
  rewrite Heq in Hh. destruct fd as [|fd]; [|done].
  cbn in Hh. by simplify_eq.
Qed.

(** C9: a transfer whose host does not carry the marker never touches
    [os.environ], whether it returns or raises: the map is unchanged and
    no access to it is logged.  This covers [host=None] and a
    [NoHostProvided] instance. *)
Theorem transfers_without_marker_leave_environ (id sec bucket fname key : string)
    (up_fname : pyval) (dry_run : bool) (cb : option callback)
    (md5 : option (string * string)) (rr : bool) (ct : option string)
    (host : host_arg) :
  host_has_marker host = false →
  env_quiet (download_from_s3 id sec bucket fname key dry_run host)
  ∧ env_quiet (upload_to_s3 id sec up_fname bucket key cb md5 rr ct host).
Proof.
  intros Hhost. split; [by apply env_quiet_download|by apply env_quiet_upload].
Qed.

Lemma transfers_without_marker_leave_environ_witness :
  env_quiet (download_from_s3 "id" "secret" "b" "out.bin" "k" false HostNone)
  ∧ env_quiet (upload_to_s3 "id" "secret" (PStr "in.bin") "b" "k" None None
                 false None HostNone).
Proof.
  apply (transfers_without_marker_leave_environ "id" "secret" "b" "out.bin" "k"
           (PStr "in.bin") false None None false None HostNone).
  reflexivity.
Defined.

(** C10: with a path string for [fname] the descriptor query raises
    ([str] has no [fileno]) and the [except] branch measures by seeking
    to the end; whenever such a call, with a string for the host, returns,
    the file exists, the handle the call opened was sought to the file's
    length, and the value returned is the comparison of the reported count
    with that length. *)
Theorem upload_size_is_seek_end_measurement (id sec p bucket key : string)
    (cb : option callback) (md5 : option (string * string)) (rr : bool)
    (ct : option string) (h : string) (w : world) (b : bool) :
  let r := upload_to_s3 id sec (PStr p) bucket key cb md5 rr ct (HostStr h) w in
  let fd := length (handles w) in
  r.1 = Ret b →
  (∀ w', fileno (PStr p) w' = (Raise AttributeError, w'))
  ∧ (∀ fid w', measure_size (PStr p) fid w' = (seek fid 0 SEEK_END;; tell fid) w')
  ∧ ∃ content,
      files w !! p = Some content
      ∧ FileSeek fd (length content) ∈ log r.2
      ∧ b = bool_decide (put_reply w content = Some (Z.of_nat (length content))).
Proof.
  intros r fd Hret. subst r fd.
  destruct (upload_returns_inv _ _ _ _ _ _ _ _ _ _ _ _ Hret)
    as (h' & p' & content & objs & Hh & Hp & Hf & Hv & Hb).
  simplify_eq.
  destruct (upload_run id sec p' bucket key cb md5 rr ct h' w content objs
              Hf Hv Hb) as (Hr & _ & Hl & _).
  split; [done|]. split; [done|]. exists content.
  split; [exact Hf|]. split; [|congruence].
  rewrite Hl, !elem_of_app. right. right. left.
  rewrite !elem_of_cons. auto.
Qed.

Lemma upload_size_is_seek_end_measurement_witness :
  ∃ content,
    files lossy_world !! "in.bin" = Some content
    ∧ FileSeek 0 (length content)
        ∈ log (upload_to_s3 "id" "secret" (PStr "in.bin") "b" "k2" None None
                 false None us_host lossy_world).2
    ∧ false = bool_decide (put_reply lossy_world content
                           = Some (Z.of_nat (length content))).
Proof.
  exact (proj2 (proj2
    (upload_size_is_seek_end_measurement "id" "secret" "in.bin" "b" "k2"
       None None false None "s3.amazonaws.com" lossy_world false
       ltac:(vm_compute; reflexivity)))).
Defined.
#[local] Set Warnings "-clear-no-such-hyp".

(** * Further properties of the transfer wrappers *)

(** Whenever [download_from_s3] returns from a path that runs to the end
    (the key is missing, or the object is fetched) a marker host leaves
    the flag deleted; a value the caller had set before the call is not
    put back. *)
Theorem download_deletes_flag_on_full_paths (id sec bucket fname key : string)
    (dry_run : bool) (host : host_arg) (w : world) (b : bool) :
  host_has_marker host = true →
  lookup_object w bucket key = None ∨ dry_run = false →
  let r := download_from_s3 id sec bucket fname key dry_run host w in
  r.1 = Ret b →
  environ r.2 = delete SIGV4 (environ w) ∧ environ r.2 !! SIGV4 = None.
Proof.
  intros Hm Hcase r Hret. subst r.
  destruct (host_marker_inv host Hm) as (h & -> & Hc).
  pose proof (download_run id sec bucket fname key dry_run h w) as H.
  cbv zeta in H. rewrite Hc in H.
  assert (environ (download_from_s3 id sec bucket fname key dry_run (HostStr h)
                     w).2 = delete SIGV4 (environ w)) as Heq.
  { destruct (lookup_object w bucket key) as [o|].
    - destruct Hcase as [Hn| ->]; [done|].
      destruct (writable w fname); destruct H as (Hr & _ & He & _);
        [exact He|congruence].
    - by destruct H as (_ & _ & ? & _). }
  split; [exact Heq|]. rewrite Heq. apply lookup_delete_eq.
Qed.

Lemma download_deletes_flag_on_full_paths_witness :
  let w := with_environ <[SIGV4 := "caller"]> sample_world in
  environ (download_from_s3 "id" "secret" "b" "out.bin" "k" false eu_host w).2
    !! SIGV4 = None.
Proof.
  exact (proj2
    (download_deletes_flag_on_full_paths "id" "secret" "b" "out.bin" "k" false
       eu_host (with_environ <[SIGV4 := "caller"]> sample_world) true
       ltac:(vm_compute; reflexivity) (or_intror eq_refl)
       ltac:(vm_compute; reflexivity))).
Defined.

(** Every call of [download_from_s3] on an existing key with [dry_run]
    set and a marker host returns [True] with the flag still set. *)
Theorem download_dry_run_keeps_flag (id sec bucket fname key : string)
    (host : host_arg) (w : world) (o : s3_object) :
  host_has_marker host = true →
  lookup_object w bucket key = Some o →
  let r := download_from_s3 id sec bucket fname key true host w in
  r.1 = Ret true ∧ environ r.2 !! SIGV4 = Some "True".
Proof.
  intros Hm Ho. cbv zeta.
  destruct (host_marker_inv host Hm) as (h & -> & Hc).
  pose proof (download_run id sec bucket fname key true h w) as H.
  cbv zeta in H. rewrite Hc, Ho in H. destruct H as (Hr & _ & He & _).
  split; [exact Hr|]. rewrite He. apply lookup_insert_eq.
Qed.

Lemma download_dry_run_keeps_flag_witness :
  environ (download_from_s3 "id" "secret" "b" "out.bin" "k" true eu_host
             sample_world).2 !! SIGV4 = Some "True".
Proof.
  exact (proj2
    (download_dry_run_keeps_flag "id" "secret" "b" "out.bin" "k" eu_host
       sample_world sample_object
       ltac:(vm_compute; reflexivity) ltac:(vm_compute; reflexivity))).
Defined.

(** Whenever [upload_to_s3] returns for a marker host, the flag has been
    deleted again. *)
Theorem upload_deletes_flag_when_it_returns (id sec : string) (fname : pyval)
    (bucket key : string) (cb : option callback)
    (md5 : option (string * string)) (rr : bool) (ct : option string)
    (host : host_arg) (w : world) (b : bool) :
  host_has_marker host = true →
  let r := upload_to_s3 id sec fname bucket key cb md5 rr ct host w in
  r.1 = Ret b →
  environ r.2 = delete SIGV4 (environ w) ∧ environ r.2 !! SIGV4 = None.
Proof.
  intros Hm r Hret. subst r.
  destruct (upload_returns_inv _ _ _ _ _ _ _ _ _ _ _ _ Hret)
    as (h & p & content & objs & -> & -> & Hf & Hv & Hb).
  destruct (upload_run id sec p bucket key cb md5 rr ct h w content objs
              Hf Hv Hb) as (_ & _ & _ & He & _).
  cbn in Hm. rewrite Hm in He.
  split; [exact He|]. rewrite He. apply lookup_delete_eq.
Qed.

Lemma upload_deletes_flag_when_it_returns_witness :
  environ (upload_to_s3 "id" "secret" (PStr "in.bin") "b" "k2" None None false
             None eu_host lossy_world).2 !! SIGV4 = None.
Proof.
  exact (proj2
    (upload_deletes_flag_when_it_returns "id" "secret" (PStr "in.bin") "b" "k2"
       None None false None eu_host lossy_world false
       ltac:(vm_compute; reflexivity) ltac:(vm_compute; reflexivity))).
Defined.

(** When [upload_to_s3] raises after the host test (no such bucket, no
    such local file), a marker host leaves the flag set: nothing deletes
    it on the way out. *)
Theorem upload_raise_leaves_flag_set (id sec p bucket key : string)
    (cb : option callback) (md5 : option (string * string)) (rr : bool)
    (ct : option string) (host : host_arg) (w : world) :
  host_has_marker host = true →
  s3 w !! bucket = None ∨ files w !! p = None →
  let r := upload_to_s3 id sec (PStr p) bucket key cb md5 rr ct host w in
  (∃ e, r.1 = Raise e) ∧ environ r.2 !! SIGV4 = Some "True".
Proof.
  intros Hm Hcase. cbv zeta.
  destruct (host_marker_inv host Hm) as (h & -> & Hc).
  destruct (s3 w !! bucket) as [objs|] eqn:Hb.
  - destruct Hcase as [|Hf]; [done|].
    destruct (upload_raises_missing_file id sec p bucket key cb md5 rr ct
                h w objs Hb Hf) as (Hr & He & _).
    rewrite Hc in He. split; [by eexists|]. rewrite He. apply lookup_insert_eq.
  - destruct (upload_raises_missing_bucket id sec (PStr p) bucket key cb md5 rr
                ct h w Hb) as (Hr & He & _).
    rewrite Hc in He. split; [by eexists|]. rewrite He. apply lookup_insert_eq.
Qed.

Lemma upload_raise_leaves_flag_set_witness :
  environ (upload_to_s3 "id" "secret" (PStr "in.bin") "nowhere" "k2" None None
             false None eu_host sample_world).2 !! SIGV4 = Some "True".
Proof.
  exact (proj2
    (upload_raise_leaves_flag_set "id" "secret" "in.bin" "nowhere" "k2"
       None None false None eu_host sample_world
       ltac:(vm_compute; reflexivity) ltac:(left; vm_compute; reflexivity))).
Defined.

(** With a string for the host and a bucket that does not exist,
    [download_from_s3] (which does not validate) returns [False] after
    reporting the key missing, while [upload_to_s3] (which validates)
    raises before it opens the local file. *)
Theorem missing_bucket_download_false_upload_raises (id sec bucket fname key : string)
    (up_fname : pyval) (dry_run : bool) (cb : option callback)
    (md5 : option (string * string)) (rr : bool) (ct : option string)
    (h : string) (w : world) :
  s3 w !! bucket = None →
  let d := download_from_s3 id sec bucket fname key dry_run (HostStr h) w in
  let u := upload_to_s3 id sec up_fname bucket key cb md5 rr ct (HostStr h) w in
  d.1 = Ret false ∧ files d.2 = files w
  ∧ u.1 = Raise S3ResponseError ∧ handles u.2 = handles w ∧ s3 u.2 = s3 w.
Proof.
  intros Hb. cbv zeta.
  pose proof (download_run id sec bucket fname key dry_run h w) as H.
  cbv zeta in H. unfold lookup_object in H. rewrite Hb in H.
  destruct H as (Hr & Hf & _).
  destruct (upload_raises_missing_bucket id sec up_fname bucket key cb md5 rr ct
              h w Hb) as (Hu & _ & _ & _ & Hhs & Hs).
  done.
Qed.

Lemma missing_bucket_download_false_upload_raises_witness :
  (download_from_s3 "id" "secret" "nowhere" "out.bin" "k" false us_host
     sample_world).1 = Ret false
  ∧ (upload_to_s3 "id" "secret" (PStr "in.bin") "nowhere" "k" None None false
       None us_host sample_world).1 = Raise S3ResponseError.
Proof.
  pose proof (missing_bucket_download_false_upload_raises "id" "secret"
    "nowhere" "out.bin" "k" (PStr "in.bin") false None None false None
    "s3.amazonaws.com" sample_world ltac:(vm_compute; reflexivity)) as H.
  exact (conj (proj1 H) (proj1 (proj2 (proj2 H)))).
Defined.

(** With a string for the host, [download_from_s3] sends the request for
    the object exactly when the key exists, the call is not a dry run and
    the destination can be opened for writing. *)
Theorem download_reads_only_when_needed (id sec bucket fname key : string)
    (dry_run : bool) (h : string) (w : world) :
  let r := download_from_s3 id sec bucket fname key dry_run (HostStr h) w in
  ∃ evs, log r.2 = log w ++ evs
         ∧ (S3Get bucket key ∈ evs
            ↔ is_Some (lookup_object w bucket key) ∧ dry_run = false
              ∧ writable w fname = true).
Proof.
  cbv zeta.
  pose proof (download_run id sec bucket fname key dry_run h w) as H.
  cbv zeta in H.
  destruct (lookup_object w bucket key) as [o|];
    [destruct dry_run; [|destruct (writable w fname)]|];
    destruct H as (_ & _ & _ & Hl); eexists; (split; [exact Hl|]);
    destruct (PyStr.contains marker h);
    rewrite ?elem_of_app, ?elem_of_cons, ?elem_of_nil, is_Some_alt;
    naive_solver.
Qed.

(** With a string for the host, the message about a missing key is
    printed exactly when the key is missing, whatever [dry_run] says. *)
Theorem download_reports_exactly_missing_keys (id sec bucket fname key : string)
    (dry_run : bool) (h : string) (w : world) :
  let r := download_from_s3 id sec bucket fname key dry_run (HostStr h) w in
  ∃ evs, log r.2 = log w ++ evs
         ∧ (Print ("could not get " +:+ key +:+ " : it does not exist") ∈ evs
            ↔ lookup_object w bucket key = None).
Proof.
  cbv zeta.
  pose proof (download_run id sec bucket fname key dry_run h w) as H.
  cbv zeta in H.
  destruct (lookup_object w bucket key) as [o|];
    [destruct dry_run; [|destruct (writable w fname)]|];
    destruct H as (_ & _ & _ & Hl); eexists; (split; [exact Hl|]);
    destruct (PyStr.contains marker h);
    rewrite ?elem_of_app, ?elem_of_cons, ?elem_of_nil;
    unfold missing_msg; naive_solver.
Qed.

(** A call of either wrapper changes no environment variable other than
    [S3_USE_SIGV4], on any input and on any way out. *)
Theorem transfers_touch_only_sigv4 (id sec bucket fname key : string)
    (up_fname : pyval) (dry_run : bool) (cb : option callback)
    (md5 : option (string * string)) (rr : bool) (ct : option string)
    (host : host_arg) (w : world) (k : string) :
  k ≠ SIGV4 →
  environ (download_from_s3 id sec bucket fname key dry_run host w).2 !! k
    = environ w !! k
  ∧ environ (upload_to_s3 id sec up_fname bucket key cb md5 rr ct host w).2 !! k
    = environ w !! k.
Proof.
  intros Hk.
  destruct (host_cases host) as [Hbad|[h ->]].
  { by rewrite (download_raises_bad_host _ _ _ _ _ _ _ _ Hbad),
               (upload_raises_bad_host _ _ _ _ _ _ _ _ _ _ _ Hbad). }
  split.
  - pose proof (download_run id sec bucket fname key dry_run h w) as H.
    cbv zeta in H.
    destruct (lookup_object w bucket key) as [o|];
      [destruct dry_run; [|destruct (writable w fname)]|];
      destruct H as (_ & _ & -> & _); destruct (PyStr.contains marker h);
      by rewrite ?lookup_delete_ne, ?lookup_insert_ne.
  - destruct (s3 w !! bucket) as [objs|] eqn:Hb.
    + destruct up_fname as [p|fd].
      * destruct (files w !! p) as [content|] eqn:Hf.
        -- destruct (UTF8.valid content) eqn:Hv.
           ++ destruct (upload_run id sec p bucket key cb md5 rr ct h w content
                          objs Hf Hv Hb) as (_ & _ & _ & -> & _).
              destruct (PyStr.contains marker h); by rewrite ?lookup_delete_ne.
           ++ destruct (upload_raises_undecodable id sec p bucket key cb md5 rr
                          ct h w content objs Hf Hv Hb) as (_ & -> & _).
              destruct (PyStr.contains marker h); by rewrite ?lookup_insert_ne.
        -- destruct (upload_raises_missing_file id sec p bucket key cb md5 rr ct
                       h w objs Hb Hf) as (_ & -> & _).
           destruct (PyStr.contains marker h); by rewrite ?lookup_insert_ne.
      * destruct (upload_raises_file_object id sec fd bucket key cb md5 rr ct
                    h w objs Hb) as (_ & -> & _).
        destruct (PyStr.contains marker h); by rewrite ?lookup_insert_ne.
    + destruct (upload_raises_missing_bucket id sec up_fname bucket key cb md5 rr
                  ct h w Hb) as (_ & -> & _).
      destruct (PyStr.contains marker h); by rewrite ?lookup_insert_ne.
Qed.

Lemma transfers_touch_only_sigv4_witness :
  let w := with_environ <[ "HOME" := "/home/ubuntu" ]> sample_world in
  environ (download_from_s3 "id" "secret" "b" "out.bin" "k" true eu_host w).2
    !! "HOME" = environ w !! "HOME".
Proof.
  exact (proj1
    (transfers_touch_only_sigv4 "id" "secret" "b" "out.bin" "k" (PStr "in.bin")
       true None None false None eu_host
       (with_environ <[ "HOME" := "/home/ubuntu" ]> sample_world) "HOME"
       ltac:(discriminate))).
Defined.





(** A local file that does not decode stops an upload in the client's
    read: the call raises, the store is left as it was, the handle has been
    closed by the [with] block, and a marker host leaves the flag set. *)
Theorem upload_undecodable_file_raises (id sec p bucket key : string)
    (cb : option callback) (md5 : option (string * string)) (rr : bool)
    (ct : option string) (h : string) (w : world) (content : list Byte.byte)
    (objs : gmap string s3_object) :
  files w !! p = Some content →
  UTF8.valid content = false →
  s3 w !! bucket = Some objs →
  let r := upload_to_s3 id sec (PStr p) bucket key cb md5 rr ct (HostStr h) w in
  r.1 = Raise UnicodeDecodeError
  ∧ s3 r.2 = s3 w
  ∧ (∃ pos, handles r.2 = handles w ++ [Handle p pos true])
  ∧ (PyStr.contains marker h = true → environ r.2 !! SIGV4 = Some "True").
Proof.
  intros Hf Hv Hb. cbv zeta.
  destruct (upload_raises_undecodable id sec p bucket key cb md5 rr ct h w
              content objs Hf Hv Hb) as (Hr & He & _ & Hs & Hhs).
  split; [exact Hr|]. split; [exact Hs|]. split; [by eexists|].
  intros Hc. rewrite He, Hc. apply lookup_insert_eq.
Qed.

Lemma upload_undecodable_file_raises_witness :
  (upload_to_s3 "id" "secret" (PStr "raw.bin") "b" "k2" None None false None
     eu_host binary_world).1 = Raise UnicodeDecodeError.
Proof.
  exact (proj1
    (upload_undecodable_file_raises "id" "secret" "raw.bin" "b" "k2" None None
       false None "s3.eu-central-1.amazonaws.com" binary_world
       [Byte.xff; Byte.xfe] {["k" := sample_object]}
       ltac:(vm_compute; reflexivity) ltac:(vm_compute; reflexivity)
       ltac:(vm_compute; reflexivity))).
Defined.

(** * Further properties of the composers *)

(** The swap block is gated by truthiness alone, and its count is the
    argument's [str()]: [True] yields [count=True], a negative size
    yields a negative count. *)
Theorem swap_block_for_true_and_negative_sizes
    (cmd repo anaconda_path env : string) (install_pip : list string)
    (p : positive) :
  make_start_script cmd repo anaconda_path env install_pip (SwapBool true)
  = Some (script_layout anaconda_path env
            (install_section anaconda_path install_pip)
            (swap_block "True") repo cmd)
  ∧ make_start_script cmd repo anaconda_path env install_pip (SwapInt (Z.neg p))
    = Some (script_layout anaconda_path env
              (install_section anaconda_path install_pip)
              (swap_block ("-" +:+ pretty p)) repo cmd).
Proof. split; apply make_start_script_layout. Qed.

(** * Further properties of the builder *)

Lemma mapM_as_str_None (l : list arg_value) :
  mapM as_str l = None ↔ forallb is_str l = false.
Proof.
  induction l as [|v l IH]; [done|].
  destruct v as [s|n| |l']; cbn [mapM as_str forallb is_str andb mbind option_bind];
    try done.
  rewrite <- IH. by destruct (mapM as_str l).
Qed.

Lemma flag_None (str_of_list : list arg_value → string)
    (item : string * arg_value) :
  (flag_value str_of_list item.1 item.2
   ≫= λ value, PyStr.format flag_tmp [("param", item.1); ("value", value)])
  = None
  ↔ item.1 = "par_args" ∧ joinable item.2 = false.
Proof.
  destruct item as [param value]. cbn [fst snd]. unfold flag_value.
  destruct (String.eqb param "par_args") eqn:Ep.
  - apply String.eqb_eq in Ep. subst param.
    destruct value as [s|n| |l]; cbn [join_value joinable mbind option_bind].
    + rewrite format_flag. naive_solver.
    + naive_solver.
    + naive_solver.
    + rewrite <- mapM_as_str_None. destruct (mapM as_str l);
        cbn [fmap option_fmap option_map mbind option_bind];
        rewrite ?format_flag; naive_solver.
  - apply String.eqb_neq in Ep. cbn [mbind option_bind].
    rewrite format_flag. naive_solver.
Qed.

(** The builder raises exactly when the mapping holds a [par_args] value
    that [' '.join] does not accept: an integer, [None], or a list with
    an item that is not a string.  Any value under another name is
    rendered by [str()]. *)
Theorem get_run_parallel_script_raises_iff
    (str_of_list : list arg_value → string)
    (parallel_args : list (string * arg_value)) :
  get_run_parallel_script str_of_list parallel_args = None
  ↔ ∃ value, ("par_args", value) ∈ parallel_args ∧ joinable value = false.
Proof.
  unfold get_run_parallel_script.
  destruct (mapM _ parallel_args) as [flags|] eqn:Hm;
    cbn [mbind option_bind].
  - rewrite percent_parallel. split; [done|].
    intros (value & Hin & Hj). exfalso.
    assert (is_Some (mapM (λ item : string * arg_value,
              flag_value str_of_list item.1 item.2
              ≫= λ value, PyStr.format flag_tmp
                             [("param", item.1); ("value", value)])
              parallel_args)) as Hs by (by rewrite Hm).
    apply mapM_is_Some_1 in Hs. rewrite Forall_forall in Hs.
    apply Hs in Hin. destruct Hin as [flag Hflag].
    pose proof (proj2 (flag_None str_of_list ("par_args", value))
                  (conj eq_refl Hj)) as Hn.
    cbn beta in Hflag. congruence.
  - split; [|done]. intros _.
    apply mapM_None_1, Exists_exists in Hm.
    destruct Hm as ([param value] & Hin & Hn).
    apply flag_None in Hn. cbn [fst snd] in Hn. destruct Hn as [-> Hj].
    by exists value.
Qed.

(** Two mappings with a [par_args] value the builder cannot join, and one
    with a list under another name. *)
Example get_run_parallel_script_mixed_list :
  get_run_parallel_script (λ _, "['a', 3]")
    [("n_jobs", VInt 4); ("par_args", VList [VStr "a"; VInt 3])] = None
  ∧ get_run_parallel_script (λ _, "['a', 3]") [("par_args", VNone)] = None
  ∧ get_run_parallel_script (λ _, "['a', 3]")
      [("n_jobs", VInt 4); ("subjects", VList [VStr "a"; VInt 3])]
    = Some "python run_parallel.py --n_jobs 4 --subjects ['a', 3]".
Proof. by vm_compute. Qed.
